(** * IntentLink backend: security-vetted candidate ranking and plan synthesis

    A shallow embedding of [services/security_service.py] (the GoPlus client:
    token acquisition and caching, the two-stage check, the safety score) and
    of [plan_intent] and [parse_intent] in [api_v1/api.py] (candidate
    selection, utility ranking, plan construction, and what reaches the
    database), with the properties the specification states about them. *)

From Stdlib Require Import ZArith List String Ascii Bool Lia.
From Stdlib Require Import Floats.SpecFloat DecimalString.
Import ListNotations.

Open Scope string_scope.
Open Scope Z_scope.

(** ** Python floats: IEEE 754 binary64 *)

Module Float64.

Definition prec : Z := 53.
Definition emax : Z := 1024.

Definition float := spec_float.

Definition mul : float -> float -> float := SFmul prec emax.
Definition add : float -> float -> float := SFadd prec emax.
Definition div : float -> float -> float := SFdiv prec emax.
Definition ltb : float -> float -> bool := SFltb.
Definition leb : float -> float -> bool := SFleb.
Definition eqb : float -> float -> bool := SFeqb.

(** The double nearest to the decimal literal [n / d] (for [0.5], [100.0],
    [0.12], ...). *)
Definition of_ratio (n d : positive) : float :=
  div (S754_finite false n 0) (S754_finite false d 0).

(** [float(n)] for a Python int: the nearest double; [None] where Python
    raises OverflowError. *)
Definition of_int (n : Z) : option float :=
  match binary_normalize prec emax n 0 false with
  | S754_infinity _ => None
  | f => Some f
  end.

Definition is_nan (x : float) : bool :=
  match x with S754_nan => true | _ => false end.

(** The integer nearest to [m * 2^e * 10^k], halves to the even one. *)
Definition scaled_half_even (m : positive) (e : Z) (k : Z) : Z :=
  let num := Z.pos m * 10 ^ k in
  match e with
  | Zneg p =>
      let den := 2 ^ Z.pos p in
      let q := num / den in
      let r := num mod den in
      match 2 * r ?= den with
      | Lt => q
      | Gt => q + 1
      | Eq => if Z.even q then q else q + 1
      end
  | _ => num * 2 ^ e
  end.

(** [round(x, 6)]: CPython rounds the exact value of [x] to six decimals,
    halves to even, and returns the double nearest to that decimal; NaN,
    infinities and zeros come back unchanged. *)
Definition round6 (x : float) : float :=
  match x with
  | S754_finite s m e =>
      match scaled_half_even m e 6 with
      | Zpos n => div (S754_finite s n 0) (S754_finite false 1000000 0)
      | _ => S754_zero s
      end
  | _ => x
  end.

(** [int(x)] on a float truncates toward zero. *)
Definition trunc (x : float) : option Z :=
  match x with
  | S754_zero _ => Some 0
  | S754_finite s m e =>
      let a := match e with
               | Zneg p => Z.pos m / 2 ^ Z.pos p
               | _ => Z.pos m * 2 ^ e
               end in
      Some (if s then - a else a)
  | _ => None
  end.

(** The place of a number in the order [SFcompare] walks: sign and class
    first, then exponent, then mantissa. NaN has no place; it is given zero's. *)
Definition key (x : float) : Z * Z * Z :=
  match x with
  | S754_infinity true => (-2, 0, 0)
  | S754_finite true m e => (-1, - e, - Z.pos m)
  | S754_zero _ => (0, 0, 0)
  | S754_nan => (0, 0, 0)
  | S754_finite false m e => (1, e, Z.pos m)
  | S754_infinity false => (2, 0, 0)
  end.

Definition lex (a b : Z * Z * Z) : comparison :=
  let '(a1, a2, a3) := a in
  let '(b1, b2, b3) := b in
  match a1 ?= b1 with
  | Eq => match a2 ?= b2 with
          | Eq => a3 ?= b3
          | c => c
          end
  | c => c
  end.

(** *** [repr(x)]: the shortest decimal that reads back as [x]

    CPython prints a float with the fewest significant digits that round to
    it again and, among those, the decimal nearest to it; the digits are laid
    out with an exponent when the decimal point falls left of the fourth
    leading zero or right of the sixteenth digit. *)

Definition digits_of (n : Z) : string := NilZero.string_of_int (Z.to_int n).

(** The double nearest to [c * 10^p]. *)
Definition of_decimal (c : positive) (p : Z) : float :=
  match p with
  | Zneg q => div (S754_finite false c 0) (S754_finite false (Z.to_pos (10 ^ Z.pos q)) 0)
  | _ => binary_normalize prec emax (Z.pos c * 10 ^ p) 0 false
  end.

(** [10^E <= num / den] *)
Definition pow10_le (E : Z) (num den : Z) : bool :=
  match E with
  | Zneg q => den <=? num * 10 ^ Z.pos q
  | _ => 10 ^ E * den <=? num
  end.

(** The exponent of the leading decimal digit of [num / den], searched
    downward from [E]. *)
Fixpoint decimal_exponent (fuel : nat) (E : Z) (num den : Z) : Z :=
  match fuel with
  | O => E
  | S fuel' => if pow10_le E num den then E else decimal_exponent fuel' (E - 1) num den
  end.

(** [num / den] in units of [10^p]: quotient, remainder and divisor. *)
Definition scaled (num den p : Z) : Z * Z * Z :=
  match p with
  | Zneg q => let n := num * 10 ^ Z.pos q in (n / den, n mod den, den)
  | _ => let d := den * 10 ^ p in (num / d, num mod d, d)
  end.

Definition round_trips (x : float) (c p : Z) : bool :=
  match c with
  | Zpos c' => eqb (of_decimal c' p) x
  | _ => false
  end.

(** With [k] significant digits, the two decimals around [x = num / den];
    the first [k] for which one of them reads back as [x] gives the digits,
    the nearer one when both do (an exact half goes to the even one). *)
Fixpoint shortest (fuel : nat) (k : Z) (x : float) (E num den : Z) : Z * Z :=
  let p := E - k + 1 in
  let '(q, r, d) := scaled num den p in
  let lo := round_trips x q p in
  let hi := round_trips x (q + 1) p in
  match fuel with
  | O => (q, p)
  | S fuel' =>
      if lo && hi then
        match 2 * r ?= d with
        | Lt => (q, p)
        | Gt => (q + 1, p)
        | Eq => if Z.even q then (q, p) else (q + 1, p)
        end
      else if lo then (q, p)
      else if hi then (q + 1, p)
      else shortest fuel' (k + 1) x E num den
  end.

Fixpoint strip_zeros (fuel : nat) (c p : Z) : Z * Z :=
  match fuel with
  | O => (c, p)
  | S fuel' => if (c mod 10 =? 0) && (0 <? c) then strip_zeros fuel' (c / 10) (p + 1)
               else (c, p)
  end.

Fixpoint zeros (n : nat) : string :=
  match n with
  | O => EmptyString
  | S n' => String "0" (zeros n')
  end.

Definition two_digits (n : Z) : string :=
  if n <? 10 then String "0" (digits_of n) else digits_of n.

(** The digits [ds] with the decimal point after the first [decpt] of them. *)
Definition layout (ds : string) (decpt : Z) : string :=
  let len := Z.of_nat (String.length ds) in
  if (decpt <=? -4) || (16 <? decpt) then
    let mantissa := match ds with
                    | String c EmptyString => String c EmptyString
                    | String c rest => String c ("." ++ rest)
                    | EmptyString => "0"
                    end in
    let e := decpt - 1 in
    mantissa ++ (if e <? 0 then "e-" else "e+") ++ two_digits (Z.abs e)
  else if decpt <=? 0 then "0." ++ zeros (Z.to_nat (- decpt)) ++ ds
  else if len <=? decpt then ds ++ zeros (Z.to_nat (decpt - len)) ++ ".0"
  else substring 0 (Z.to_nat decpt) ds ++ "." ++
       substring (Z.to_nat decpt) (Z.to_nat (len - decpt)) ds.

Definition repr (x : float) : string :=
  match x with
  | S754_nan => "nan"
  | S754_infinity s => if s then "-inf" else "inf"
  | S754_zero s => if s then "-0.0" else "0.0"
  | S754_finite s m e =>
      let num := match e with Zneg _ => Z.pos m | _ => Z.pos m * 2 ^ e end in
      let den := match e with Zneg q => 2 ^ Z.pos q | _ => 1 end in
      let E := decimal_exponent 800 400 num den in
      let '(c0, p0) := shortest 17 1 (S754_finite false m e) E num den in
      let '(c, p) := strip_zeros 20 c0 p0 in
      let ds := digits_of c in
      (if s then "-" else "") ++ layout ds (Z.of_nat (String.length ds) + p)
  end.

End Float64.

(** ** Python values, exceptions and the builtins the service relies on *)

Module Py.

(** A JSON-decoded Python value. A dict is kept as an association list;
    [lookup] takes the first binding of a key. *)
#[warnings="-register-all"]
Inductive value : Type :=
  | VNone
  | VBool (b : bool)
  | VInt (n : Z)
  | VFloat (f : Float64.float)
  | VStr (s : string)
  | VList (l : list value)
  | VDict (d : list (string * value)).

(** The exception classes that occur. [PyException what] is a plain
    [Exception(...)]; [what] is the fixed part of its message. Every
    constructor is a subclass of [Exception]. [RedisError] stands for
    redis-py's ConnectionError, [DataError] and [ResponseError] are redis-py's
    too; [DoesNotExist] is [Intent.DoesNotExist] and [DatabaseError what] any
    error of [django.db] (DataError, IntegrityError, OperationalError, ...). *)
Inductive exn : Type :=
  | HTTPStatusError
  | TransportError
  | JSONDecodeError
  | AttributeError
  | TypeError
  | ValueError
  | OverflowError
  | RedisError
  | DataError
  | ResponseError
  | DoesNotExist
  | DatabaseError (what : string)
  | PyException (what : string)
  | HttpError (status : Z) (what : string).

Inductive result (A : Type) : Type :=
  | Ok (a : A)
  | Raise (e : exn).
Arguments Ok {A} a.
Arguments Raise {A} e.

Definition rbind {A B} (r : result A) (k : A -> result B) : result B :=
  match r with
  | Ok a => k a
  | Raise e => Raise e
  end.

(** [bool(v)] *)
Definition truthy (v : value) : bool :=
  match v with
  | VNone => false
  | VBool b => b
  | VInt n => negb (Z.eqb n 0)
  | VFloat f => match f with S754_zero _ => false | _ => true end
  | VStr s => negb (String.eqb s "")
  | VList l => match l with [] => false | _ => true end
  | VDict d => match d with [] => false | _ => true end
  end.

(** [a or b] *)
Definition por (a b : value) : value := if truthy a then a else b.

(** [a or b] where evaluating [b] may raise: [b] counts only when [a] is
    falsy. *)
Definition ror (a : value) (b : result value) : result value :=
  if truthy a then Ok a else b.

Definition isinstance_dict (v : value) : bool :=
  match v with VDict _ => true | _ => false end.

Fixpoint lookup (k : string) (d : list (string * value)) : option value :=
  match d with
  | [] => None
  | (k', v) :: d' => if String.eqb k k' then Some v else lookup k d'
  end.

(** [v.get(k, default)]: only a dict has [get]. *)
Definition get (v : value) (k : string) (default : value) : result value :=
  match v with
  | VDict d => Ok (match lookup k d with Some x => x | None => default end)
  | _ => Raise AttributeError
  end.

Definition lower_ascii (c : ascii) : ascii :=
  let n := nat_of_ascii c in
  if andb (Nat.leb 65 n) (Nat.leb n 90) then ascii_of_nat (n + 32) else c.

(** [s.lower()], on ASCII text. *)
Fixpoint lower (s : string) : string :=
  match s with
  | EmptyString => EmptyString
  | String c s' => String (lower_ascii c) (lower s')
  end.

(** [sub in s] *)
Fixpoint contains (sub s : string) : bool :=
  if String.prefix sub s then true
  else match s with
       | EmptyString => false
       | String _ s' => contains sub s'
       end.

(** [str(n)] for an int. *)
Definition str_of_int (n : Z) : string := NilZero.string_of_int (Z.to_int n).

(** [str(v)] where it can be one of the flag literals the service compares
    with: [None], booleans, ints and strings. A float prints with a point, an
    exponent, [inf] or [nan], a list or dict with brackets, so those never
    equal a flag literal and are left out ([None]). *)
Definition str (v : value) : option string :=
  match v with
  | VNone => Some "None"
  | VBool true => Some "True"
  | VBool false => Some "False"
  | VInt n => Some (str_of_int n)
  | VStr s => Some s
  | _ => None
  end.

(** [str(v) in {l1, l2, ...}] *)
Definition str_in (v : value) (literals : list string) : bool :=
  match str v with
  | Some s => existsb (String.eqb s) literals
  | None => false
  end.

(** [v != 1] is false exactly for [1], [1.0] and [True]. *)
Definition eq_one (v : value) : bool :=
  match v with
  | VInt n => Z.eqb n 1
  | VBool b => b
  | VFloat f => Float64.eqb f (Float64.of_ratio 1 1)
  | _ => false
  end.

Definition is_space (c : ascii) : bool :=
  let n := nat_of_ascii c in
  orb (Nat.eqb n 32)
      (orb (andb (Nat.leb 9 n) (Nat.leb n 13)) (andb (Nat.leb 28 n) (Nat.leb n 31))).

Definition digit_of (c : ascii) : option Z :=
  let n := nat_of_ascii c in
  if andb (Nat.leb 48 n) (Nat.leb n 57) then Some (Z.of_nat (n - 48)) else None.

Fixpoint lstrip (s : string) : string :=
  match s with
  | String c s' => if is_space c then lstrip s' else s
  | EmptyString => s
  end.

(** Digits of a decimal literal after the first one: a single underscore may
    separate two digits, white space may trail. *)
Fixpoint more_digits (acc : Z) (s : string) : option Z :=
  match s with
  | EmptyString => Some acc
  | String c s' =>
      match digit_of c with
      | Some d => more_digits (10 * acc + d) s'
      | None =>
          if Ascii.eqb c "_" then
            match s' with
            | String c' _ =>
                match digit_of c' with
                | Some _ => more_digits acc s'
                | None => None
                end
            | EmptyString => None
            end
          else if String.eqb (lstrip s) "" then Some acc
          else None
      end
  end.

Definition unsigned_literal (s : string) : option Z :=
  match s with
  | String c s' =>
      match digit_of c with
      | Some d => more_digits d s'
      | None => None
      end
  | EmptyString => None
  end.

(** [int(s)] for a string, base ten, ASCII. *)
Definition int_of_str (s : string) : option Z :=
  match lstrip s with
  | String "-" s' => option_map Z.opp (unsigned_literal s')
  | String "+" s' => unsigned_literal s'
  | s' => unsigned_literal s'
  end.

(** [int(v)] *)
Definition int (v : value) : result Z :=
  match v with
  | VInt n => Ok n
  | VBool b => Ok (if b then 1 else 0)
  | VStr s => match int_of_str s with Some n => Ok n | None => Raise ValueError end
  | VFloat f =>
      match Float64.trunc f with
      | Some n => Ok n
      | None => Raise (if Float64.is_nan f then ValueError else OverflowError)
      end
  | _ => Raise TypeError
  end.

(** A text of ASCII characters only: its bytes are its characters. *)
Definition is_ascii (s : string) : bool :=
  forallb (fun c => Nat.ltb (nat_of_ascii c) 128) (list_ascii_of_string s).


(** *** Stateful code that may raise

    A computation over a state [S]: the state survives a raised exception, as
    a mutated Python object does. *)
Definition M (S A : Type) : Type := S -> result A * S.

Definition ret {S A} (a : A) : M S A := fun s => (Ok a, s).

Definition raise {S A} (e : exn) : M S A := fun s => (Raise e, s).

Definition bind {S A B} (m : M S A) (k : A -> M S B) : M S B :=
  fun s => match m s with
           | (Ok a, s') => k a s'
           | (Raise e, s') => (Raise e, s')
           end.

(** [try: m  except ... as e: handler e]; a handler that does not match the
    exception re-raises it. *)
Definition try_except {S A} (m : M S A) (handler : exn -> M S A) : M S A :=
  fun s => match m s with
           | (Ok a, s') => (Ok a, s')
           | (Raise e, s') => handler e s'
           end.

Definition lift {S A} (r : result A) : M S A := fun s => (r, s).

(** [v.get(k, default)] inside a computation. *)
Definition getM {S} (v : value) (k : string) (default : value) : M S value :=
  lift (get v k default).

Definition gets {S A} (f : S -> A) : M S A := fun s => (Ok (f s), s).

Definition modify {S} (f : S -> S) : M S unit := fun s => (Ok tt, f s).

(** Run a computation on the first component of a pair of states. *)
Definition on_fst {S T A} (m : M S A) : M (S * T) A :=
  fun st => match m (fst st) with (r, s') => (r, (s', snd st)) end.

Definition on_snd {S T A} (m : M T A) : M (S * T) A :=
  fun st => match m (snd st) with (r, t') => (r, (fst st, t')) end.

(** A computation that returns, whatever the state. *)
Definition returns {S A} (m : M S A) : Prop :=
  forall s, exists a s', m s = (Ok a, s').

End Py.

Declare Scope py_scope.
Delimit Scope py_scope with py.
Notation "x <- m ;; k" := (Py.bind m (fun x => k))
  (at level 61, m at next level, right associativity) : py_scope.
Notation "m ;;; k" := (Py.bind m (fun _ => k))
  (at level 61, right associativity) : py_scope.
Notation "x <~ r ;; k" := (Py.rbind r (fun x => k))
  (at level 61, r at next level, right associativity) : py_scope.
Open Scope py_scope.

(** ** services/security_service.py *)

Module SecurityService.
Import Py.

Record SecurityReport : Type := {
  is_safe : bool;
  safety_score : Z;
  warnings : list string
}.

(** The credentials the singleton is built with. *)
Record config : Type := {
  api_key : string;
  api_secret : string
}.

Inductive header_value : Type :=
  | Bearer (access_token : value).

(** The three calls the service makes, relative to [GOPLUS_API_BASE]. *)
Inductive request : Type :=
  | POST_token (json : list (string * string))
  | GET_token_security (chain_id : string) (contract_addresses : string)
      (headers : list (string * header_value))
  | GET_address_security (address : string) (chain_id : string)
      (headers : list (string * header_value)).

(** What one call comes to: the client raises before a response arrives,
    [raise_for_status] raises, [response.json()] raises, or a decoded body. *)
Inductive http_outcome : Type :=
  | ConnectFails
  | BadStatus
  | BodyNotJson
  | Json (body : value).

(** The surroundings of one run: the clock, whether Redis answers, and the
    oracle's answer to a request given the requests sent before it. *)
Record world : Type := {
  now : Z;
  redis_up : bool;
  http : list request -> request -> http_outcome
}.

(** What the service changes: the Redis entry under [token_cache_key] and
    the requests sent so far. The entry is recorded as the value handed to
    [set] and the time it expires; what Redis keeps of the value, and hands
    back, is its text ([redis_text] below). Time is counted in whole
    seconds. *)
Record service : Type := {
  store : option (value * Z);
  sent : list request
}.

Definition token_cache_key : string := "goplus:access_token".

Definition truthy_str (s : string) : bool := negb (String.eqb s "").

(** [_find_deployer_address]: mocked in the source. *)
Definition _find_deployer_address (chain_id contract_address : string) : option string :=
  Some "0xc8b759860149542a98a3eb57c14aadf59d6d89b9".

(** The aggregation at the end of [run_security_check]. *)
Definition aggregate (is_honeypot is_malicious_creator : bool) (warnings : list string)
  : SecurityReport :=
  let is_safe := negb is_honeypot && negb is_malicious_creator in
  let safety_score :=
    100 - (Z.of_nat (List.length warnings) * 10)
        - (if is_honeypot then 80 else 0)
        - (if is_malicious_creator then 50 else 0) in
  {| is_safe := is_safe; safety_score := Z.max 0 safety_score; warnings := warnings |}.

(** The local variables of [run_security_check] that its blocks assign. *)
Record locals : Type := {
  l_warnings : list string;
  l_is_honeypot : bool;
  l_is_malicious_creator : bool
}.

Definition add_warning (msg : string) (l : locals) : locals :=
  {| l_warnings := l_warnings l ++ [msg];
     l_is_honeypot := l_is_honeypot l;
     l_is_malicious_creator := l_is_malicious_creator l |}.

Definition record_request (r : request) (s : service) : service :=
  {| store := store s; sent := sent s ++ [r] |}.

(** What redis-py can encode: str, int and float. *)
Definition storable (v : value) : bool :=
  match v with
  | VStr _ | VInt _ | VFloat _ => true
  | _ => false
  end.

(** The text redis-py sends for a value: a str as it is, an int or a float
    as its [repr]. With [decode_responses=True] this text is what [get]
    returns. *)
Definition redis_text (v : value) : option string :=
  match v with
  | VStr s => Some s
  | VInt n => Some (str_of_int n)
  | VFloat f => Some (Float64.repr f)
  | _ => None
  end.

Definition LLONG_MAX : Z := 9223372036854775807.

(** [SET key value EX ex]: the server refuses a time to live that is not
    positive, or whose milliseconds, or whose time of expiry in
    milliseconds, do not fit a signed 64-bit integer. *)
Definition expire_accepted (now ex : Z) : bool :=
  (0 <? ex) && (ex <=? LLONG_MAX / 1000) && ((now + ex) * 1000 <=? LLONG_MAX).

Definition headers_for (access_token : value) : list (string * header_value) :=
  if truthy access_token then [("Authorization", Bearer access_token)] else [].

Inductive attempt_result : Type :=
  | Return (access_token : value)
  | Continue (last_error : exn).

(** What [_get_access_token] reads off the body of a token response, up to
    the write to the cache: a credential with its time to live, or the error
    kept in [last_error] for the next turn of the loop. *)
Inductive token_reading : Type :=
  | Credential (access_token : value) (cache_ttl : Z)
  | NoCredential (last_error : exn).

(** [access_token] and [result] of a token response. *)
Definition access_token_of (token_data : value) : result (value * value) :=
  if isinstance_dict token_data then
    r0 <~ get token_data "result" VNone ;;
    result <~ ror r0 (get token_data "data" VNone) ;;
    access_token <~
      (if isinstance_dict result then
         a <~ get result "access_token" VNone ;;
         ror a (get result "token" VNone)
       else
         a <~ get token_data "access_token" VNone ;;
         ror a (get token_data "token" VNone)) ;;
    Ok (access_token, result)
  else Ok (VNone, VNone).

(** [expires_in]: read at the top level, 3600 when absent, and again in
    [result] when that is a dict. *)
Definition expires_in_of (token_data result_ : value) : result value :=
  e0 <~ get token_data "expires_in" (VInt 3600) ;;
  if isinstance_dict result_ then get result_ "expires_in" e0 else Ok e0.

Definition read_token_data (token_data : value) : result token_reading :=
  code <~ get token_data "code" VNone ;;
  if truthy code && negb (eq_one code) then
    Ok (NoCredential (PyException "GoPlus API error"))
  else
    ar <~ access_token_of token_data ;;
    let '(access_token, result) := ar in
    if truthy access_token then
      expires_in <~ expires_in_of token_data result ;;
      n <~ int expires_in ;;
      let cache_ttl := Z.max 60 (n - 60) in
      Ok (Credential access_token cache_ttl)
    else
      Ok (NoCredential (PyException "Could not extract access token from response")).

(** The entry of a token-security response for the contract: [result] at the
    top level or under [data], keyed by the lower-cased address or by the
    address as given. *)
Definition token_security_result (token_report : value) (contract_address : string)
  : result value :=
  r0 <~ get token_report "result" (VDict []) ;;
  result <~ ror r0 (data <~ get token_report "data" (VDict []) ;;
                    get data "result" (VDict [])) ;;
  by_lower <~ get (por result (VDict [])) (lower contract_address) VNone ;;
  ror by_lower (get (por result (VDict [])) contract_address VNone).

(** [result] of an address-security response. *)
Definition address_security_result (address_report : value) : result value :=
  r0 <~ get address_report "result" (VDict []) ;;
  ror r0 (data <~ get address_report "data" (VDict []) ;;
          get data "result" (VDict [])).

Section Service.

Variable cfg : config.
Variable w : world.

(** [redis_client.get(key)]: the text of a live entry, [None] without one.
    An entry that [set] cannot have written reads as none. *)
Definition redis_get : M service (option value) :=
  fun s =>
    if redis_up w then
      (Ok match store s with
          | Some (v, expires_at) =>
              if now w <? expires_at then option_map VStr (redis_text v) else None
          | None => None
          end, s)
    else (Raise RedisError, s).

(** [redis_client.set(key, v, ex=ttl)]: the client connects, encodes the
    value (str, int and float; DataError on anything else) and sends the
    command; the server answers a time to live it refuses with an error
    (ResponseError). *)
Definition redis_set (v : value) (ex : Z) : M service unit :=
  fun s =>
    if redis_up w then
      if storable v then
        if expire_accepted (now w) ex then
          (Ok tt, {| store := Some (v, now w + ex); sent := sent s |})
        else (Raise ResponseError, s)
      else (Raise DataError, s)
    else (Raise RedisError, s).

(** The call, [raise_for_status()] and [json()] of one request. *)
Definition http_send (r : request) : M service value :=
  fun s =>
    let s' := record_request r s in
    match http w (sent s) r with
    | ConnectFails => (Raise TransportError, s')
    | BadStatus => (Raise HTTPStatusError, s')
    | BodyNotJson => (Raise JSONDecodeError, s')
    | Json body => (Ok body, s')
    end.

Definition auth_payloads : list (list (string * string)) :=
  [ [("app_key", api_key cfg); ("app_secret", api_secret cfg)];
    [("appKey", api_key cfg); ("appSecret", api_secret cfg)];
    [("api_key", api_key cfg); ("api_secret", api_secret cfg)] ].

(** One turn of the loop over [auth_payloads]. *)
Definition attempt (payload : list (string * string)) : M service attempt_result :=
  try_except
    (token_data <- http_send (POST_token payload) ;;
     reading <- lift (read_token_data token_data) ;;
     match reading with
     | Credential access_token cache_ttl =>
         redis_set access_token cache_ttl ;;;
         ret (Return access_token)
     | NoCredential last_error => ret (Continue last_error)
     end)
    (fun e => match e with
              | HTTPStatusError => ret (Continue e)
              | _ => raise e
              end).

Fixpoint try_payloads (payloads : list (list (string * string))) (last_error : option exn)
  : M service value :=
  match payloads with
  | [] =>
      match last_error with
      | Some e => raise e
      | None => raise (PyException "All authentication attempts failed")
      end
  | payload :: rest =>
      r <- attempt payload ;;
      match r with
      | Return access_token => ret access_token
      | Continue e => try_payloads rest (Some e)
      end
  end.

(** [_get_access_token] past the cache lookup. *)
Definition fetch_access_token : M service value :=
  if negb (truthy_str (api_key cfg)) || negb (truthy_str (api_secret cfg)) then
    raise (PyException "GoPlus API credentials not configured")
  else
    try_except (try_payloads auth_payloads None)
      (fun e => match e with
                | HTTPStatusError => raise (PyException "Failed to get GoPlus access token")
                | _ => raise e
                end).

Definition _get_access_token : M service value :=
  cached_token <- redis_get ;;
  match cached_token with
  | Some t => if truthy t then ret t else fetch_access_token
  | None => fetch_access_token
  end.

Definition init_locals : locals :=
  {| l_warnings := []; l_is_honeypot := false; l_is_malicious_creator := false |}.

(** [warnings.append(msg)] *)
Definition warn (msg : string) : M (service * locals) unit :=
  on_snd (modify (add_warning msg)).

Definition set_is_honeypot : M (service * locals) unit :=
  on_snd (modify (fun l =>
    {| l_warnings := l_warnings l;
       l_is_honeypot := true;
       l_is_malicious_creator := l_is_malicious_creator l |})).

Definition set_is_malicious_creator : M (service * locals) unit :=
  on_snd (modify (fun l =>
    {| l_warnings := l_warnings l;
       l_is_honeypot := l_is_honeypot l;
       l_is_malicious_creator := true |})).

(** The token the checks are sent with: asked for only when both credentials
    are set; a failure to get one is swallowed. *)
Definition acquire_token : M (service * locals) value :=
  if truthy_str (api_key cfg) && truthy_str (api_secret cfg) then
    try_except (on_fst _get_access_token) (fun _ => ret VNone)
  else ret VNone.

(** Check 1: Token Security API. *)
Definition token_security_check (chain_id contract_address : string) (access_token : value)
  : M (service * locals) unit :=
  try_except
    (token_report <- on_fst (http_send
        (GET_token_security chain_id contract_address (headers_for access_token))) ;;
     result <- lift (token_security_result token_report contract_address) ;;
     if truthy result then
       is_honeypot <- getM result "is_honeypot" VNone ;;
       is_open_source <- getM result "is_open_source" VNone ;;
       (if str_in is_honeypot ["1"; "true"; "True"] then
          set_is_honeypot ;;;
          warn "Honeypot detected by GoPlus."
        else ret tt) ;;;
       (if str_in is_open_source ["0"; "false"; "False"] then
          warn "Contract source code is not verified."
        else ret tt)
     else
       warn "Could not retrieve a token security report from GoPlus.")
    (fun e => match e with
              | HTTPStatusError => warn "Failed to perform token security check."
              | _ => warn "Failed to perform token security check."
              end).

(** Check 2: Malicious Address API, on the deployer. *)
Definition address_security_check (chain_id contract_address : string) (access_token : value)
  : M (service * locals) unit :=
  match _find_deployer_address chain_id contract_address with
  | Some deployer_address =>
      if truthy_str deployer_address then
        try_except
          (address_report <- on_fst (http_send
              (GET_address_security deployer_address chain_id (headers_for access_token))) ;;
           result <- lift (address_security_result address_report) ;;
           if truthy result then
             honeypot_related <- getM result "honeypot_related_address" VNone ;;
             if str_in honeypot_related ["1"; "true"; "True"] then
               set_is_malicious_creator ;;;
               warn "Deployer address is related to honeypot activities."
             else ret tt
           else ret tt)
          (fun e => match e with
                    | HTTPStatusError =>
                        warn "Failed to perform deployer address security check."
                    | _ => warn "Failed to perform deployer address security check."
                    end)
      else ret tt
  | None => ret tt
  end.

Definition security_check_body (chain_id contract_address : string)
  : M (service * locals) SecurityReport :=
  access_token <- acquire_token ;;
  token_security_check chain_id contract_address access_token ;;;
  address_security_check chain_id contract_address access_token ;;;
  l <- gets snd ;;
  ret (aggregate (l_is_honeypot l) (l_is_malicious_creator l) (l_warnings l)).

Definition run_security_check (chain_id contract_address : string)
  : M service SecurityReport :=
  fun s =>
    match security_check_body chain_id contract_address (s, init_locals) with
    | (r, (s', _)) => (r, s')
    end.

End Service.

(** *** Notions the statements about the service use *)

(** The live credential in the cache, if any: the text of the entry, when
    it has not expired and is not empty. *)
Definition cached_token (w : world) (s : service) : option value :=
  match store s with
  | Some (v, expires_at) =>
      match redis_text v with
      | Some text =>
          if (now w <? expires_at) && truthy_str text then Some (VStr text) else None
      | None => None
      end
  | None => None
  end.

(** The oracle's answer to the [j]-th payload of [payloads], the earlier ones
    having been sent. *)
Definition answer (w : world) (payloads : list (list (string * string))) (s : service)
    (j : nat) : http_outcome :=
  http w (sent s ++ map POST_token (firstn j payloads)) (POST_token (nth j payloads [])).


(** The answers after which the loop goes on to the next payload: an error
    status, an API error code, a body without a credential. *)
Definition moves_on (o : http_outcome) : bool :=
  match o with
  | BadStatus => true
  | Json body => match read_token_data body with
                 | Ok (NoCredential _) => true
                 | _ => false
                 end
  | _ => false
  end.

End SecurityService.

(** ** api_v1/models.py, api_v1/schemas.py and [plan_intent] of api_v1/api.py *)

Module Api.
Import Py SecurityService.

Definition uuid : Type := N.

Inductive IntentStatus : Type :=
  | PARSED | PLANNED | SIMULATED | SIGNED | EXECUTING | COMPLETED | FAILED | CLARIFY.

(** A row of [Intent], without its two timestamps. *)
Record Intent : Type := {
  id : uuid;
  user_wallet : string;
  chain_id : Z;
  input_text : option string;
  intent_json : value;
  status : IntentStatus
}.

Inductive PlanStatus : Type :=
  | READY | PLAN_SIMULATED | APPROVED | EXECUTED | PLAN_FAILED.

(** A step of [plan_json]: the dict with its ["type"] as the tag. *)
Inductive step : Type :=
  | Approve (asset amount : value) (spender : string)
  | Stake (contract : string) (asset amount : value)
  | Lend (contract : string) (asset amount : value).

Record plan_data : Type := {
  steps : list step;
  chosen_protocol : string;
  intent_wallet : string;
  plan_chain_id : Z
}.

(** An entry of a whitelist; every entry of the source carries the four keys.
    [mock_tvl] is kept as the integer given. *)
Record candidate : Type := {
  c_address : string;
  mock_apy : Float64.float;
  mock_tvl : Z;
  c_protocol : string
}.

Record CandidateSchema : Type := {
  address : string;
  apy : Float64.float;
  tvl : Z;
  safety_score : Z;
  utility : Float64.float;
  warnings : list string;
  protocol : string
}.

Record Plan : Type := {
  plan_id : uuid;
  intent : uuid;
  plan_json : plan_data;
  utility_scores : list CandidateSchema;
  chosen_contract_address : string;
  plan_status : PlanStatus
}.

Record PlanOutput : Type := {
  out_plan_id : uuid;
  candidates : list CandidateSchema;
  chosen : CandidateSchema
}.

Record database : Type := {
  intents : list Intent;
  plans : list Plan
}.

(** The service singleton and the database. *)
Definition app : Type := (service * database)%type.

Definition no_safe_candidates_message : string :=
  "Could not generate a plan. No safe and valid candidates were found after GoPlus security check.".

Definition INTENT_WALLET_ADDRESS : string := "0x718a09981d305c2293d0c85e9d957ad25cb2a1c7".

Definition CANDIDATE_FARMS : list candidate :=
  [ {| c_address := "0x1b227DF9c8D34CaB880774737FBf426E66Ba98Ed";
       mock_apy := Float64.of_ratio 12 100;
       mock_tvl := 500000;
       c_protocol := "staking" |} ].

Definition CANDIDATE_LENDING : list candidate :=
  [ {| c_address := "0xa23bDd28F9221F275897D8A26A8eb97A341cd257";
       mock_apy := Float64.of_ratio 5 100;
       mock_tvl := 2500000;
       c_protocol := "lending" |} ].

(** Step 1: the candidate list for the (lower-cased) intent type. *)
Definition candidates_for (intent_type : string) : list candidate :=
  if contains "lend" intent_type || contains "borrow" intent_type then CANDIDATE_LENDING
  else if contains "stake" intent_type || contains "farm" intent_type then CANDIDATE_FARMS
  else CANDIDATE_FARMS.

(** [(apy * 0.5) + ((safety_score / 100.0) * 0.5)] *)
Definition utility_of (apy safety_score : Float64.float) : Float64.float :=
  Float64.add (Float64.mul apy (Float64.of_ratio 1 2))
              (Float64.mul (Float64.div safety_score (Float64.of_ratio 100 1))
                           (Float64.of_ratio 1 2)).

(** [float(n)] *)
Definition float_of_int {S} (n : Z) : M S Float64.float :=
  match Float64.of_int n with
  | Some f => ret f
  | None => raise OverflowError
  end.

(** [max(l, key=lambda c: c.utility)]: the running maximum is replaced only
    by a strictly greater element. *)
Fixpoint max_from (best : CandidateSchema) (l : list CandidateSchema) : CandidateSchema :=
  match l with
  | [] => best
  | c :: l' => max_from (if Float64.ltb (utility best) (utility c) then c else best) l'
  end.

Definition max_by_utility (l : list CandidateSchema) : result CandidateSchema :=
  match l with
  | [] => Raise ValueError
  | c :: l' => Ok (max_from c l')
  end.

(** Step 5: the steps and the plan for the chosen candidate. *)
Definition action_step (chosen_candidate : CandidateSchema) (intent_type : string)
    (asset amount : value) : step :=
  if String.eqb (protocol chosen_candidate) "lending" || contains "lend" intent_type then
    Lend (address chosen_candidate) asset amount
  else
    Stake (address chosen_candidate) asset amount.

Definition build_plan_data (chosen_candidate : CandidateSchema) (intent_type : string)
    (asset amount : value) (chain : Z) : plan_data :=
  {| steps := [ Approve asset amount (address chosen_candidate);
                action_step chosen_candidate intent_type asset amount ];
     chosen_protocol := protocol chosen_candidate;
     intent_wallet := INTENT_WALLET_ADDRESS;
     plan_chain_id := chain |}.

Fixpoint find_intent (intent_id : uuid) (l : list Intent) : option Intent :=
  match l with
  | [] => None
  | i :: l' => if N.eqb (id i) intent_id then Some i else find_intent intent_id l'
  end.

Definition set_status (intent_id : uuid) (st : IntentStatus) (i : Intent) : Intent :=
  if N.eqb (id i) intent_id then
    {| id := id i; user_wallet := user_wallet i; chain_id := chain_id i;
       input_text := input_text i; intent_json := intent_json i; status := st |}
  else i.

Section Planning.

Variable cfg : config.
Variable w : world.
(** [uuid.uuid4()] for the plan created when [n] plans exist. *)
Variable uuid4 : nat -> uuid.

(** Steps 2 and 3: the loop over the candidates. *)
Fixpoint check_candidates (chain_id_str : string) (candidates_to_check : list candidate)
    (candidate_results : list CandidateSchema) : M app (list CandidateSchema) :=
  match candidates_to_check with
  | [] => ret candidate_results
  | candidate :: rest =>
      let addr := c_address candidate in
      checked <- try_except
                   (report <- on_fst (run_security_check cfg w chain_id_str addr) ;;
                    ret (Some report))
                   (fun _ => ret None) ;;
      match checked with
      | None => check_candidates chain_id_str rest candidate_results
      | Some report =>
          if negb (is_safe report) then
            check_candidates chain_id_str rest candidate_results
          else
            let apy := mock_apy candidate in
            safety_score <- float_of_int (SecurityService.safety_score report) ;;
            let utility := utility_of apy safety_score in
            let candidate_schema :=
              {| address := addr;
                 apy := apy;
                 tvl := mock_tvl candidate;
                 safety_score := SecurityService.safety_score report;
                 utility := Float64.round6 utility;
                 warnings := SecurityService.warnings report;
                 protocol := c_protocol candidate |} in
            check_candidates chain_id_str rest (candidate_results ++ [candidate_schema])
      end
  end.

(** [plan_intent] from the candidate list on (steps 2 to 7). *)
Definition plan_with (candidates_to_check : list candidate) (intent : Intent)
    (intent_type : string) : M app PlanOutput :=
  candidate_results <- check_candidates (str_of_int (chain_id intent)) candidates_to_check [] ;;
  match candidate_results with
  | [] => raise (HttpError 500 no_safe_candidates_message)
  | _ =>
      chosen_candidate <- lift (max_by_utility candidate_results) ;;
      asset <- getM (intent_json intent) "asset" VNone ;;
      amount <- getM (intent_json intent) "amount" VNone ;;
      let plan_data := build_plan_data chosen_candidate intent_type asset amount
                         (chain_id intent) in
      db <- gets snd ;;
      let new_plan :=
        {| plan_id := uuid4 (List.length (plans db));
           intent := id intent;
           plan_json := plan_data;
           utility_scores := candidate_results;
           chosen_contract_address := address chosen_candidate;
           plan_status := READY |} in
      on_snd (modify (fun db =>
        {| intents := map (set_status (id intent) PLANNED) (intents db);
           plans := plans db ++ [new_plan] |})) ;;;
      ret {| out_plan_id := plan_id new_plan;
             candidates := candidate_results;
             chosen := chosen_candidate |}
  end.

(** [(intent.intent_json or {}).get("intent_type", "").lower()] *)
Definition intent_type_of (intent : Intent) : M app string :=
  t <- getM (por (intent_json intent) (VDict [])) "intent_type" (VStr "") ;;
  match t with
  | VStr s => ret (lower s)
  | _ => raise AttributeError
  end.

Definition plan_intent (payload_intent_id : uuid) : M app PlanOutput :=
  db <- gets snd ;;
  match find_intent payload_intent_id (intents db) with
  | None => raise (HttpError 404 "Intent with ID {intent_id} not found.")
  | Some intent =>
      intent_type <- intent_type_of intent ;;
      plan_with (candidates_for intent_type) intent intent_type
  end.

End Planning.

(** *** Notions the statements about planning use *)

(** The entry [c] of [candidate_results] made from the whitelist entry
    [cand]. *)
Definition schema_of (cand : candidate) (c : CandidateSchema) : Prop :=
  address c = c_address cand /\
  apy c = mock_apy cand /\
  protocol c = c_protocol cand /\
  0 <= safety_score c <= 100 /\
  exists f, Float64.of_int (safety_score c) = Some f /\
            utility c = Float64.round6 (utility_of (apy c) f).

(** [results] are made from some of [cands], in the order of [cands]. *)
Inductive kept : list candidate -> list CandidateSchema -> Prop :=
  | kept_nil : kept [] []
  | kept_skip cand cands results :
      kept cands results -> kept (cand :: cands) results
  | kept_take cand cands c results :
      schema_of cand c -> kept cands results -> kept (cand :: cands) (c :: results).

End Api.

(** ** Concrete oracles, intents and whitelists *)

Module Scenarios.
Import Py SecurityService Api.

Definition configured : config := {| api_key := "key"; api_secret := "secret" |}.
Definition unconfigured : config := {| api_key := ""; api_secret := "" |}.

Definition fresh : service := {| store := None; sent := [] |}.

Definition token_body : value :=
  VDict [("code", VInt 1);
         ("result", VDict [("access_token", VStr "tok"); ("expires_in", VInt 7200)])].

Definition first_key (r : request) : string :=
  match r with
  | POST_token ((k, _) :: _) => k
  | _ => ""
  end.

(** The token endpoint refuses the first payload with an error status and
    accepts the second. *)
Definition second_shape_world : world :=
  {| now := 1000; redis_up := true;
     http := fun _ r => if String.eqb (first_key r) "appKey" then Json token_body
                        else BadStatus |}.


Definition token_entry (is_honeypot is_open_source : string) : value :=
  VDict [("is_honeypot", VStr is_honeypot); ("is_open_source", VStr is_open_source)].

(** An oracle that reports every contract with the given [is_honeypot] flag,
    verified source and a clean deployer. *)
Definition oracle (is_honeypot : string) : world :=
  {| now := 1000; redis_up := true;
     http := fun _ r =>
       match r with
       | POST_token _ => BadStatus
       | GET_token_security _ a _ =>
           Json (VDict [("code", VInt 1);
                        ("result", VDict [(lower a, token_entry is_honeypot "1")])])
       | GET_address_security _ _ _ =>
           Json (VDict [("code", VInt 1);
                        ("result", VDict [("honeypot_related_address", VStr "0")])])
       end |}.

(** An oracle whose token-security entry says nothing of [is_open_source]. *)
Definition silent_source_world : world :=
  {| now := 1000; redis_up := true;
     http := fun _ r =>
       match r with
       | GET_token_security _ a _ =>
           Json (VDict [("result", VDict [(lower a, VDict [("is_honeypot", VStr "0")])])])
       | _ => BadStatus
       end |}.

Definition silent_source_body : value :=
  VDict [("result", VDict [("0xab", VDict [("is_honeypot", VStr "0")])])].

Definition verified_body : value :=
  VDict [("result", VDict [("0xab", token_entry "1" "0")])].

Definition unverified_honeypot_world : world :=
  {| now := 1000; redis_up := true; http := fun _ _ => Json verified_body |}.

Definition no_locals : locals :=
  {| l_warnings := []; l_is_honeypot := false; l_is_malicious_creator := false |}.

Definition intent_with (json : value) (st : IntentStatus) : Intent :=
  {| id := 7%N; user_wallet := "0xme"; chain_id := 1043; input_text := None;
     intent_json := json; status := st |}.

Definition stake_intent : Intent :=
  intent_with (VDict [("intent_type", VStr "stake_and_compound"); ("asset", VStr "BDAG");
                      ("amount", VInt 1000)]) PARSED.

Definition borrow_intent : Intent :=
  intent_with (VDict [("intent_type", VStr "Borrow"); ("asset", VStr "BDAG");
                      ("amount", VInt 1000)]) PARSED.

Definition clarify_intent : Intent := intent_with (VDict []) CLARIFY.

Definition start (i : Intent) : app := (fresh, {| intents := [i]; plans := [] |}).

Definition uuids (n : nat) : uuid := N.of_nat n.

(** Two farms with the same yield. *)
Definition two_farms : list candidate :=
  [ {| c_address := "0xA1"; mock_apy := Float64.of_ratio 12 100; mock_tvl := 1;
       c_protocol := "staking" |};
    {| c_address := "0xB2"; mock_apy := Float64.of_ratio 12 100; mock_tvl := 2;
       c_protocol := "staking" |} ].

Definition two_farms_run : result (list CandidateSchema) * app :=
  Eval vm_compute in
    check_candidates unconfigured (oracle "0") "1043" two_farms [] (start clarify_intent).

Definition two_farms_results : list CandidateSchema :=
  Eval vm_compute in
    match fst two_farms_run with
    | Ok l => l
    | Raise _ => []
    end.

Definition lending_run : result (list CandidateSchema) * app :=
  Eval vm_compute in
    check_candidates unconfigured (oracle "0") "1043" CANDIDATE_LENDING []
      (start borrow_intent).

Definition lending_results : list CandidateSchema :=
  Eval vm_compute in
    match fst lending_run with
    | Ok l => l
    | Raise _ => []
    end.

Definition honeypot_run : result (list CandidateSchema) * app :=
  Eval vm_compute in
    check_candidates unconfigured (oracle "1") "1043" CANDIDATE_FARMS []
      (start stake_intent).

End Scenarios.

(** ** The schemas and the stub of [parse_intent], and the service singleton *)

Module ApiParse.
Import Py SecurityService Api.

(** [IntentParseInput] *)
Record IntentParseInput : Type := {
  input : string;
  payload_user_wallet : string;
  payload_chain_id : Z
}.

(** [IntentSchema] *)
Record IntentSchema : Type := {
  intent_type : string;
  asset : string;
  amount : Float64.float;
  amount_unit : string;
  target : string
}.

(** [IntentParseOutput]; [status] is the text of the [Intent.Status] member. *)
Record IntentParseOutput : Type := {
  intent_id : uuid;
  out_status : IntentStatus;
  out_intent : IntentSchema;
  clarify_questions : option (list string)
}.

(** The dict the stub returns for the phrase it knows, as stored in
    [intent_json] and as the schema reads it. *)
Definition stake_intent_data : value :=
  VDict [("intent_type", VStr "stake_and_compound");
         ("asset", VStr "BDAG");
         ("amount", VFloat (Float64.of_ratio 1000 1));
         ("amount_unit", VStr "token");
         ("target", VStr "highest_risk_adjusted_apr")].

Definition stake_intent_schema : IntentSchema :=
  {| intent_type := "stake_and_compound";
     asset := "BDAG";
     amount := Float64.of_ratio 1000 1;
     amount_unit := "token";
     target := "highest_risk_adjusted_apr" |}.

Definition clarify_question : string :=
  "Sorry, I can only understand staking intents right now.".

(** [IntentParseOutput(intent_id=..., status=..., intent=..., clarify_questions=...)]:
    [intent: IntentSchema] is a required field that is not Optional, so
    [None] fails validation (pydantic's ValidationError, a ValueError). *)
Definition make_output (intent_id : uuid) (status : IntentStatus)
    (intent : option IntentSchema) (clarify_questions : list string)
  : result IntentParseOutput :=
  match intent with
  | Some i => Ok {| intent_id := intent_id; out_status := status; out_intent := i;
                    clarify_questions := Some clarify_questions |}
  | None => Raise ValueError
  end.

(** [_create_security_service]: the credentials come from the settings, that
    is from the environment; an unset variable counts as the empty string. *)
Definition _create_security_service (GOPLUS_API_KEY GOPLUS_API_SECRET : option string)
  : config :=
  {| api_key := match GOPLUS_API_KEY with Some k => k | None => "" end;
     api_secret := match GOPLUS_API_SECRET with Some k => k | None => "" end |}.

End ApiParse.

(** ** The two endpoints, statement by statement

    [Api.plan_intent] reads and writes a database that carries out every
    statement. Here each statement of [parse_intent] and of [plan_intent] is
    a step of its own, held to what the PostgreSQL columns of the settings'
    database take, and able to fail. Django runs in autocommit mode (the
    settings have no ATOMIC_REQUESTS and the endpoints no
    [transaction.atomic]): a statement that went through stays when a later
    one fails. *)

Module Stored.
Import Py SecurityService Api ApiParse.

(** *** What the columns take *)

(** A byte that continues a character of a UTF-8 text. *)
Definition is_continuation (c : ascii) : bool :=
  let n := nat_of_ascii c in Nat.leb 128 n && Nat.ltb n 192.

(** A text split after its first [n] characters. *)
Fixpoint split_chars (n : nat) (s : string) : string * string :=
  match s with
  | EmptyString => (EmptyString, EmptyString)
  | String c s' =>
      if is_continuation c then
        let (first, rest) := split_chars n s' in (String c first, rest)
      else
        match n with
        | O => (EmptyString, s)
        | S n' => let (first, rest) := split_chars n' s' in (String c first, rest)
        end
  end.

Definition all_spaces (s : string) : bool :=
  forallb (Ascii.eqb " ") (list_ascii_of_string s).

(** What a [varchar(n)] column keeps of a text: the text when it has at most
    [n] characters, its first [n] characters when all that follows is
    spaces; any other text is refused. *)
Definition varchar (n : nat) (s : string) : option string :=
  let (first, rest) := split_chars n s in
  if all_spaces rest then Some first else None.

(** A text with the character NUL: no text column, and no jsonb, takes it. *)
Definition has_nul (s : string) : bool :=
  existsb (Ascii.eqb Ascii.zero) (list_ascii_of_string s).

Definition fits_int4 (n : Z) : bool := (-2147483648 <=? n) && (n <=? 2147483647).

Definition is_finite (f : Float64.float) : bool :=
  match f with
  | S754_zero _ | S754_finite _ _ _ => true
  | _ => false
  end.

(** What a [jsonb] column takes: [json.dumps] writes NaN and the infinities
    as bare words, which are no JSON. *)
Fixpoint jsonb_accepts (v : value) : bool :=
  match v with
  | VStr s => negb (has_nul s)
  | VFloat f => is_finite f
  | VList l => forallb jsonb_accepts l
  | VDict d => forallb (fun kv => negb (has_nul (fst kv)) && jsonb_accepts (snd kv)) d
  | _ => true
  end.

Definition step_accepted (st : step) : bool :=
  match st with
  | Approve asset amount spender =>
      jsonb_accepts asset && jsonb_accepts amount && negb (has_nul spender)
  | Stake contract asset amount | Lend contract asset amount =>
      jsonb_accepts asset && jsonb_accepts amount && negb (has_nul contract)
  end.

Definition plan_data_accepted (p : plan_data) : bool :=
  forallb step_accepted (steps p)
  && negb (has_nul (chosen_protocol p)) && negb (has_nul (intent_wallet p)).

Definition candidate_accepted (c : CandidateSchema) : bool :=
  negb (has_nul (address c)) && is_finite (apy c) && is_finite (utility c)
  && forallb (fun m => negb (has_nul m)) (warnings c) && negb (has_nul (protocol c)).

(** What is beyond the program: for each of the four statements, whether
    the database fails it (the connection is lost, the server is shutting
    down, ...) and with what message. *)
Record db_faults : Type := {
  insert_intent_fails : option string;
  select_intent_fails : option string;
  insert_plan_fails : option string;
  update_intent_fails : option string
}.

Definition no_faults : db_faults :=
  {| insert_intent_fails := None; select_intent_fails := None;
     insert_plan_fails := None; update_intent_fails := None |}.

Definition has_plan (plan_id_ : uuid) (l : list Plan) : bool :=
  existsb (fun p => N.eqb (plan_id p) plan_id_) l.

Section Endpoints.

Variable faults : db_faults.
(** What the database driver raises for a text with NUL: ValueError
    (psycopg2) or DataError (psycopg 3). *)
Variable nul_error : exn.
Variable cfg : config.
Variable w : world.
(** [uuid.uuid4()] for the row created when the table has [n] rows. *)
Variable uuid4 : nat -> uuid.

(** [Intent.objects.create(...)]: one INSERT. The row keeps of the wallet
    what the column keeps. *)
Definition intent_objects_create (user_wallet : string) (chain : Z) (input_text : string)
    (json : value) (st : IntentStatus) : M app Intent :=
  match insert_intent_fails faults with
  | Some what => raise (DatabaseError what)
  | None =>
      db <- gets snd ;;
      let new_id := uuid4 (List.length (intents db)) in
      if has_nul user_wallet || has_nul input_text then raise nul_error
      else if negb (jsonb_accepts json) then
        raise (DatabaseError "invalid input syntax for type json")
      else
        match varchar 42 user_wallet with
        | None => raise (DatabaseError "value too long for type character varying(42)")
        | Some wallet =>
            if negb (fits_int4 chain) then raise (DatabaseError "integer out of range")
            else
              match find_intent new_id (intents db) with
              | Some _ =>
                  raise (DatabaseError "duplicate key value violates unique constraint")
              | None =>
                  let i := {| id := new_id; user_wallet := wallet; chain_id := chain;
                              input_text := Some input_text; intent_json := json;
                              status := st |} in
                  on_snd (modify (fun db =>
                    {| intents := intents db ++ [i]; plans := plans db |})) ;;;
                  ret i
              end
        end
  end.

Definition parse_intent (payload : IntentParseInput) : M app IntentParseOutput :=
  let understood := contains "stake 1000 bdag" (lower (input payload)) in
  let parsed_intent_data := if understood then stake_intent_data else VDict [] in
  let status := if understood then PARSED else CLARIFY in
  intent <- try_except
              (intent_objects_create (payload_user_wallet payload) (payload_chain_id payload)
                 (input payload) parsed_intent_data status)
              (fun e => raise e) ;;
  lift (make_output (id intent) (Api.status intent)
          (if understood then Some stake_intent_schema else None)
          (if understood then [] else [clarify_question])).

(** [Intent.objects.get(id=...)]: one SELECT. *)
Definition intent_objects_get (intent_id : uuid) : M app Intent :=
  match select_intent_fails faults with
  | Some what => raise (DatabaseError what)
  | None =>
      db <- gets snd ;;
      match find_intent intent_id (intents db) with
      | Some i => ret i
      | None => raise DoesNotExist
      end
  end.

(** [Plan.objects.create(...)]: one INSERT; the intent must be there, the id
    new, the address within the column. *)
Definition plan_objects_create (intent : Intent) (plan_json : plan_data)
    (utility_scores : list CandidateSchema) (chosen_contract_address : string)
    (st : PlanStatus) : M app Plan :=
  match insert_plan_fails faults with
  | Some what => raise (DatabaseError what)
  | None =>
      db <- gets snd ;;
      let new_id := uuid4 (List.length (plans db)) in
      if has_nul chosen_contract_address then raise nul_error
      else if negb (plan_data_accepted plan_json && forallb candidate_accepted utility_scores)
      then raise (DatabaseError "invalid input syntax for type json")
      else
        match varchar 42 chosen_contract_address with
        | None => raise (DatabaseError "value too long for type character varying(42)")
        | Some kept_address =>
            match find_intent (id intent) (intents db) with
            | None => raise (DatabaseError "violates foreign key constraint")
            | Some _ =>
                if has_plan new_id (plans db) then
                  raise (DatabaseError "duplicate key value violates unique constraint")
                else
                  let new_plan :=
                    {| plan_id := new_id;
                       Api.intent := id intent;
                       Api.plan_json := plan_json;
                       Api.utility_scores := utility_scores;
                       Api.chosen_contract_address := kept_address;
                       plan_status := st |} in
                  on_snd (modify (fun db =>
                    {| intents := intents db; plans := plans db ++ [new_plan] |})) ;;;
                  ret new_plan
            end
        end
  end.

(** [intent.status = st; intent.save()]: one UPDATE of the intent's row.
    The instance was read from that row by the same request, so the other
    columns are written as they are. *)
Definition intent_save (intent : Intent) (st : IntentStatus) : M app unit :=
  match update_intent_fails faults with
  | Some what => raise (DatabaseError what)
  | None =>
      on_snd (modify (fun db =>
        {| intents := map (set_status (id intent) st) (intents db); plans := plans db |}))
  end.

(** Step 0. *)
Definition load_intent (payload_intent_id : uuid) : M app Intent :=
  try_except (intent_objects_get payload_intent_id)
    (fun e => match e with
              | DoesNotExist => raise (HttpError 404 "Intent with ID {intent_id} not found.")
              | _ => raise e
              end).

(** Step 6. *)
Definition save_plan (intent : Intent) (plan_data_ : plan_data)
    (candidate_results : list CandidateSchema) (chosen_candidate : CandidateSchema)
  : M app Plan :=
  try_except
    (new_plan <- plan_objects_create intent plan_data_ candidate_results
                   (address chosen_candidate) READY ;;
     intent_save intent PLANNED ;;;
     ret new_plan)
    (fun e => raise e).

Definition plan_intent (payload_intent_id : uuid) : M app PlanOutput :=
  intent <- load_intent payload_intent_id ;;
  intent_type <- intent_type_of intent ;;
  candidate_results <- check_candidates cfg w (str_of_int (chain_id intent))
                         (candidates_for intent_type) [] ;;
  match candidate_results with
  | [] => raise (HttpError 500 no_safe_candidates_message)
  | _ =>
      chosen_candidate <- lift (max_by_utility candidate_results) ;;
      asset <- getM (intent_json intent) "asset" VNone ;;
      amount <- getM (intent_json intent) "amount" VNone ;;
      let plan_data_ := build_plan_data chosen_candidate intent_type asset amount
                          (chain_id intent) in
      new_plan <- save_plan intent plan_data_ candidate_results chosen_candidate ;;
      ret {| out_plan_id := plan_id new_plan;
             candidates := candidate_results;
             chosen := chosen_candidate |}
  end.

End Endpoints.

(** A text of ASCII characters without NUL: lower-casing it, counting its
    characters and storing it go by its bytes. *)
Definition plain_text (s : string) : bool := is_ascii s && negb (has_nul s).

End Stored.

(** ** What a run can be observed to do *)

Module Observations.
Import Py SecurityService Api.

(** What the token-security check can leave: the honeypot flag it sets and
    the warnings it appends. *)
Definition token_check_outcomes : list (bool * list string) :=
  [ (false, []);
    (false, ["Contract source code is not verified."]);
    (false, ["Could not retrieve a token security report from GoPlus."]);
    (false, ["Failed to perform token security check."]);
    (true, ["Honeypot detected by GoPlus."]);
    (true, ["Honeypot detected by GoPlus."; "Contract source code is not verified."]) ].

(** The same for the check of the deployer. *)
Definition address_check_outcomes : list (bool * list string) :=
  [ (false, []);
    (false, ["Failed to perform deployer address security check."]);
    (true, ["Deployer address is related to honeypot activities."]) ].

Definition possible_reports : list SecurityReport :=
  flat_map (fun t =>
    map (fun a => aggregate (fst t) (fst a) (snd t ++ snd a)) address_check_outcomes)
    token_check_outcomes.

Definition flag_warning (msg : string) : bool :=
  String.eqb msg "Honeypot detected by GoPlus."
  || String.eqb msg "Deployer address is related to honeypot activities.".

(** The contracts of the token-security requests in a log, in order. *)
Definition checked_addresses (l : list request) : list string :=
  flat_map (fun r => match r with
                     | GET_token_security _ a _ => [a]
                     | _ => []
                     end) l.

(** The error an answer ends the acquisition with, if it does: no connection,
    an undecodable body, a body that cannot be read. *)
Definition aborts (o : http_outcome) : option exn :=
  match o with
  | ConnectFails => Some TransportError
  | BodyNotJson => Some JSONDecodeError
  | Json body => match read_token_data body with
                 | Raise e => Some e
                 | Ok _ => None
                 end
  | BadStatus => None
  end.

(** The expiry a token response reports is not a text with a character
    outside ASCII. ([int] reads the decimal digits and the white space of
    every script; the model's [int] reads ASCII.) *)
Definition expiry_is_plain (o : http_outcome) : bool :=
  match o with
  | Json body =>
      match access_token_of body with
      | Ok (_, result_) =>
          match expires_in_of body result_ with
          | Ok (VStr s) => is_ascii s
          | _ => true
          end
      | Raise _ => true
      end
  | _ => true
  end.

(** The error raised when this answer was the last one and the loop moved
    on from it. *)
Definition refusal (o : http_outcome) : exn :=
  match o with
  | Json body => match read_token_data body with
                 | Ok (NoCredential e) => e
                 | _ => PyException "Failed to get GoPlus access token"
                 end
  | _ => PyException "Failed to get GoPlus access token"
  end.

Definition deployer_request (chain : string) (tok : value) : request :=
  GET_address_security "0xc8b759860149542a98a3eb57c14aadf59d6d89b9" chain (headers_for tok).

(** The credential the checks of a run are sent with, and the service after
    getting it: asked for only when both credentials are set, [None] when
    getting it raised. *)
Definition token_used (cfg : config) (w : world) (s : service) : value * service :=
  if truthy_str (api_key cfg) && truthy_str (api_secret cfg) then
    match _get_access_token cfg w s with
    | (Ok t, s') => (t, s')
    | (Raise _, s') => (VNone, s')
    end
  else (VNone, s).

(** What the ranked entries carry. *)
Definition vetted (c : CandidateSchema) : Prop :=
  80 <= Api.safety_score c <= 100 /\
  (List.length (Api.warnings c) <= 2)%nat /\
  existsb flag_warning (Api.warnings c) = false.

Definition is_dict_with_text_type (v : value) : bool :=
  match v with
  | VDict d => match lookup "intent_type" d with
               | Some (VStr _) | None => true
               | Some _ => false
               end
  | _ => negb (truthy v)
  end.

End Observations.

(** ** More concrete worlds *)

Module MoreScenarios.
Import Py SecurityService Api ApiParse Scenarios.

Definition redis_down_world : world :=
  {| now := 1000; redis_up := false; http := http (oracle "0") |}.

Definition refusing_world : world :=
  {| now := 1000; redis_up := true;
     http := fun l r =>
       match r with
       | POST_token _ =>
           match l with
           | [] => BadStatus
           | [_] => Json (VDict [("code", VInt 4012); ("message", VStr "wrong key")])
           | _ => Json (VDict [("code", VInt 1)])
           end
       | _ => http (oracle "0") l r
       end |}.

(** The second payload is answered with a body that is not JSON. *)
Definition garbled_second_world : world :=
  {| now := 1000; redis_up := true;
     http := fun l r =>
       match r with
       | POST_token _ => match l with [] => BadStatus | _ => BodyNotJson end
       | _ => http (oracle "0") l r
       end |}.

Definition later (w : world) (seconds : Z) : world :=
  {| now := now w + seconds; redis_up := redis_up w; http := http w |}.

(** The token endpoint hands out a number as the credential and says
    nothing of its expiry. *)
Definition numeric_token_world : world :=
  {| now := 1000; redis_up := true;
     http := fun _ _ => Json (VDict [("access_token", VInt 12345)]) |}.

Definition numeric_token_cached : service :=
  {| store := Some (VInt 12345, 1000 + 3540);
     sent := [POST_token [("app_key", "key"); ("app_secret", "secret")]] |}.

Definition empty_db : database := {| intents := []; plans := [] |}.

Definition stake_payload : IntentParseInput :=
  {| input := "Please STAKE 1000 BDAG for me"; payload_user_wallet := "0xme";
     payload_chain_id := 1043 |}.

Definition swap_payload : IntentParseInput :=
  {| input := "swap everything"; payload_user_wallet := "0xme";
     payload_chain_id := 1043 |}.

Definition list_intent : Intent := intent_with (VList [VInt 1]) PARSED.
Definition null_intent : Intent := intent_with VNone PARSED.

Definition null_run : result (list CandidateSchema) * app :=
  Eval vm_compute in
    check_candidates unconfigured (oracle "0") "1043" CANDIDATE_FARMS [] (start null_intent).

Definition null_results : list CandidateSchema :=
  Eval vm_compute in
    match fst null_run with
    | Ok l => l
    | Raise _ => []
    end.

Definition parsed_run : result IntentParseOutput * app :=
  Eval vm_compute in
    Stored.parse_intent Stored.no_faults ValueError uuids stake_payload (fresh, empty_db).

(** The database fails the UPDATE of [plan_intent] and nothing else. *)
Definition update_fails : Stored.db_faults :=
  {| Stored.insert_intent_fails := None; Stored.select_intent_fails := None;
     Stored.insert_plan_fails := None;
     Stored.update_intent_fails := Some "server closed the connection unexpectedly" |}.

(** A wallet of 42 characters that are not ASCII (84 bytes), and one of 43
    characters. *)
Fixpoint copies (n : nat) (s : string) : string :=
  match n with
  | O => EmptyString
  | S n' => s ++ copies n' s
  end.

Definition accented_wallet : string :=
  copies 42 (String (ascii_of_nat 195) (String (ascii_of_nat 169) EmptyString)).

Definition long_wallet : string := copies 43 "a".

Definition orphan_run : result PlanOutput * app :=
  Eval vm_compute in
    Stored.plan_intent update_fails ValueError unconfigured (oracle "0") uuids 7%N
      (start borrow_intent).

Definition parsed_farms_run : result (list CandidateSchema) * app :=
  Eval vm_compute in
    check_candidates unconfigured (oracle "0") "1043" CANDIDATE_FARMS [] (snd parsed_run).

Definition parsed_farms_results : list CandidateSchema :=
  Eval vm_compute in
    match fst parsed_farms_run with
    | Ok l => l
    | Raise _ => []
    end.

Definition no_candidate : CandidateSchema :=
  {| address := ""; apy := S754_zero false; tvl := 0; safety_score := 0;
     utility := S754_zero false; warnings := []; protocol := "" |}.

Definition borrow_plan_run : result PlanOutput * app :=
  Eval vm_compute in plan_intent unconfigured (oracle "0") uuids 7%N (start borrow_intent).

Definition borrow_plan_out : PlanOutput :=
  Eval vm_compute in
    match fst borrow_plan_run with
    | Ok out => out
    | Raise _ => {| out_plan_id := 0%N; candidates := []; chosen := no_candidate |}
    end.

End MoreScenarios.

(** * Properties *)

(** ** The order on floats *)

Module Float64Facts.
Import Float64.

Lemma compare_key (x y : float) :
  is_nan x = false -> is_nan y = false ->
  SFcompare x y = Some (lex (key x) (key y)).
Proof.
  destruct x as [sx|sx| |sx mx ex], y as [sy|sy| |sy my ey];
    try discriminate; intros _ _;
    try (destruct sx); try (destruct sy); try reflexivity.
  unfold SFcompare, key, lex. change (-1 ?= -1) with Eq. cbv iota.
  rewrite Z.compare_opp, (Z.compare_antisym ex ey).
  destruct (ex ?= ey); cbn [CompOpp]; reflexivity.
Qed.

Lemma lex_lt (a b : Z * Z * Z) :
  lex a b = Lt <->
  (fst (fst a) < fst (fst b) \/
   (fst (fst a) = fst (fst b) /\
    (snd (fst a) < snd (fst b) \/
     (snd (fst a) = snd (fst b) /\ snd a < snd b)))).
Proof.
  destruct a as [[a1 a2] a3], b as [[b1 b2] b3]; cbn [lex fst snd].
  destruct (Z.compare_spec a1 b1), (Z.compare_spec a2 b2), (Z.compare_spec a3 b3);
    split; intros; try discriminate; try reflexivity; lia.
Qed.

Lemma lex_gt (a b : Z * Z * Z) : lex a b = Gt <-> lex b a = Lt.
Proof.
  destruct a as [[a1 a2] a3], b as [[b1 b2] b3]; cbn [lex].
  rewrite (Z.compare_antisym a1 b1), (Z.compare_antisym a2 b2), (Z.compare_antisym a3 b3).
  destruct (a1 ?= b1), (a2 ?= b2), (a3 ?= b3); cbn; split; congruence.
Qed.

Lemma ltb_key (x y : float) :
  ltb x y = true <-> is_nan x = false /\ is_nan y = false /\ lex (key x) (key y) = Lt.
Proof.
  unfold ltb, SFltb.
  destruct (is_nan x) eqn:Hx; [destruct x; try discriminate; cbn; intuition discriminate|].
  destruct (is_nan y) eqn:Hy;
    [destruct y; try discriminate; destruct x; cbn; intuition discriminate|].
  rewrite (compare_key x y Hx Hy).
  destruct (lex (key x) (key y)); intuition congruence.
Qed.

Lemma leb_key (x y : float) :
  leb x y = true <-> is_nan x = false /\ is_nan y = false /\ lex (key x) (key y) <> Gt.
Proof.
  unfold leb, SFleb.
  destruct (is_nan x) eqn:Hx; [destruct x; try discriminate; cbn; intuition discriminate|].
  destruct (is_nan y) eqn:Hy;
    [destruct y; try discriminate; destruct x; cbn; intuition discriminate|].
  rewrite (compare_key x y Hx Hy).
  destruct (lex (key x) (key y)); intuition congruence.
Qed.

Lemma ltb_irrefl (x : float) : ltb x x = false.
Proof.
  destruct (ltb x x) eqn:H; [|reflexivity].
  apply ltb_key in H. destruct H as (_ & _ & H). apply lex_lt in H. lia.
Qed.

Lemma ltb_leb (x y : float) : ltb x y = true -> leb x y = true.
Proof.
  unfold ltb, leb, SFltb, SFleb. destruct (SFcompare x y) as [[]|]; congruence.
Qed.

(** [o < x] and not [o < y]: then not [x <= y]. This is what keeps a
    replaced maximum above everything seen, NaN included. *)
Lemma ltb_not_leb (o x y : float) :
  ltb o x = true -> ltb o y = false -> leb x y = false.
Proof.
  intros Hox Hoy. destruct (leb x y) eqn:Hxy; [|reflexivity].
  apply ltb_key in Hox. destruct Hox as (Ho & Hx & Hox).
  apply leb_key in Hxy. destruct Hxy as (_ & Hy & Hxy).
  assert (Hlt : lex (key o) (key y) = Lt).
  { apply lex_lt. apply lex_lt in Hox.
    assert (Hn : ~ lex (key y) (key x) = Lt) by (intro H; apply lex_gt in H; contradiction).
    rewrite lex_lt in Hn. lia. }
  assert (ltb o y = true) by (apply ltb_key; auto). congruence.
Qed.


(** [float(n)] of a score does not overflow. *)
Lemma of_int_score (n : Z) :
  0 <= n <= 100 -> exists f, of_int n = Some f.
Proof.
  intros Hn.
  assert (H : forallb (fun k => match of_int (Z.of_nat k) with
                                | Some _ => true
                                | None => false
                                end) (seq 0 101) = true) by (vm_compute; reflexivity).
  rewrite forallb_forall in H.
  specialize (H (Z.to_nat n)). rewrite Z2Nat.id in H by lia.
  destruct (of_int n) as [f|].
  - exists f. reflexivity.
  - discriminate H. apply in_seq. lia.
Qed.

Lemma append_nonempty_l (a b : string) : a <> "" -> a ++ b <> "".
Proof. destruct a; [congruence|discriminate]. Qed.

Lemma append_nonempty_r (a b : string) : b <> "" -> a ++ b <> "".
Proof. destruct a; cbn; [auto|discriminate]. Qed.

Lemma layout_nonempty ds decpt : layout ds decpt <> "".
Proof.
  unfold layout.
  destruct ((decpt <=? -4) || (16 <? decpt)).
  - apply append_nonempty_l. destruct ds as [|c [|c' r]]; discriminate.
  - destruct (decpt <=? 0); [discriminate|].
    destruct (Z.of_nat (String.length ds) <=? decpt).
    + apply append_nonempty_r, append_nonempty_r. discriminate.
    + apply append_nonempty_r. discriminate.
Qed.

(** No float prints as the empty text. *)
Lemma repr_nonempty x : repr x <> "".
Proof.
  destruct x as [s|s| |s m e]; try (destruct s; discriminate); try discriminate.
  unfold repr.
  destruct (shortest _ _ _ _ _ _) as [c0 p0].
  destruct (strip_zeros _ _ _) as [c p].
  apply append_nonempty_r, layout_nonempty.
Qed.

End Float64Facts.

(** ** Computations that return *)

Module PyFacts.
Import Py.

Lemma returns_ret {S A} (a : A) : returns (@ret S A a).
Proof. intros s. exists a, s. reflexivity. Qed.

Lemma returns_try_except {S A} (m : M S A) (handler : exn -> M S A) :
  (forall e, returns (handler e)) -> returns (try_except m handler).
Proof.
  intros Hh s. unfold try_except.
  destruct (m s) as [[a|e] s1].
  - exists a, s1. reflexivity.
  - apply Hh.
Qed.

Lemma returns_on_snd_modify {S T} (f : T -> T) : returns (@on_snd S T unit (modify f)).
Proof. intros [s t]. exists tt, (s, f t). reflexivity. Qed.

Lemma str_of_int_nonempty n : str_of_int n <> "".
Proof.
  unfold str_of_int, NilZero.string_of_int.
  destruct (Z.to_int n) as [d|d]; [|discriminate].
  unfold NilZero.string_of_uint. destruct d; discriminate.
Qed.

End PyFacts.

(** ** The security service *)

Module SecurityServiceFacts.
Import Py SecurityService PyFacts Scenarios.

Section Checks.
Variable cfg : config.
Variable w : world.

Lemma warn_returns msg : returns (warn msg).
Proof. apply returns_on_snd_modify. Qed.

Lemma acquire_token_returns : returns (acquire_token cfg w).
Proof.
  unfold acquire_token.
  destruct (truthy_str (api_key cfg) && truthy_str (api_secret cfg)).
  - apply returns_try_except. intros _. apply returns_ret.
  - apply returns_ret.
Qed.

Lemma token_security_check_returns chain addr tok :
  returns (token_security_check w chain addr tok).
Proof.
  apply returns_try_except. intros []; apply warn_returns.
Qed.

Lemma address_security_check_returns chain addr tok :
  returns (address_security_check w chain addr tok).
Proof.
  unfold address_security_check.
  destruct (_find_deployer_address chain addr) as [d|]; [|apply returns_ret].
  destruct (truthy_str d); [|apply returns_ret].
  apply returns_try_except. intros []; apply warn_returns.
Qed.

(** The body of [run_security_check] returns the aggregate of the flags and
    warnings its blocks leave. *)
Lemma security_check_body_spec chain addr (st : service * locals) :
  exists s' l',
    security_check_body cfg w chain addr st
    = (Ok (aggregate (l_is_honeypot l') (l_is_malicious_creator l') (l_warnings l')),
       (s', l')).
Proof.
  unfold security_check_body, bind.
  destruct (acquire_token_returns st) as (tok & st1 & E1). rewrite E1.
  destruct (token_security_check_returns chain addr tok st1) as ([] & st2 & E2). rewrite E2.
  destruct (address_security_check_returns chain addr tok st2) as ([] & [s3 l3] & E3).
  rewrite E3. exists s3, l3. reflexivity.
Qed.

Lemma run_security_check_spec chain addr (s : service) :
  exists hp mc ws s',
    run_security_check cfg w chain addr s = (Ok (aggregate hp mc ws), s').
Proof.
  unfold run_security_check.
  destruct (security_check_body_spec chain addr (s, init_locals)) as (s' & l' & E).
  rewrite E. eauto.
Qed.

(** Each check sends its one request and leaves the cache alone. *)
Lemma token_security_check_sends chain addr tok s l :
  exists l', token_security_check w chain addr tok (s, l)
             = (Ok tt, (record_request (GET_token_security chain addr (headers_for tok)) s,
                        l')).
Proof.
  unfold token_security_check, try_except, bind, on_fst, http_send, lift, getM;
    cbn [fst snd].
  destruct (http w (sent s) _) as [| | |body]; try (eexists; reflexivity).
  destruct (token_security_result body addr) as [entry|e]; [|destruct e; eexists; reflexivity].
  destruct (truthy entry); [|eexists; reflexivity].
  destruct (get entry "is_honeypot" VNone) as [hp|e]; [|destruct e; eexists; reflexivity].
  destruct (get entry "is_open_source" VNone) as [os|e]; [|destruct e; eexists; reflexivity].
  unfold lift; cbv beta iota.
  destruct (str_in hp ["1"; "true"; "True"]), (str_in os ["0"; "false"; "False"]);
    eexists; reflexivity.
Qed.

Lemma address_security_check_sends chain addr tok s l :
  exists l', address_security_check w chain addr tok (s, l)
             = (Ok tt, (record_request
                          (GET_address_security "0xc8b759860149542a98a3eb57c14aadf59d6d89b9"
                             chain (headers_for tok)) s,
                        l')).
Proof.
  unfold address_security_check, try_except, bind, on_fst, http_send, lift, getM;
    cbn [_find_deployer_address truthy_str String.eqb negb fst snd].
  destruct (http w (sent s) _) as [| | |body]; try (eexists; reflexivity).
  destruct (address_security_result body) as [entry|e]; [|destruct e; eexists; reflexivity].
  destruct (truthy entry); [|eexists; reflexivity].
  destruct (get entry "honeypot_related_address" VNone) as [hp|e];
    [|destruct e; eexists; reflexivity].
  unfold lift; cbv beta iota.
  destruct (str_in hp ["1"; "true"; "True"]); eexists; reflexivity.
Qed.

(** With Redis up, [_get_access_token] hands back the live cached credential
    or goes to the token endpoint. *)
Lemma get_access_token_cached s :
  redis_up w = true ->
  _get_access_token cfg w s
  = match cached_token w s with
    | Some t => (Ok t, s)
    | None => fetch_access_token cfg w s
    end.
Proof.
  intros Hup. unfold _get_access_token, bind, redis_get, cached_token. rewrite Hup.
  destruct (store s) as [[v e]|]; [|reflexivity].
  destruct (redis_text v) as [text|], (now w <? e); cbn [option_map andb]; try reflexivity.
  unfold truthy_str. cbn [truthy]. destruct (negb (String.eqb text "")); reflexivity.
Qed.

Lemma attempt_moves_on p s :
  moves_on (http w (sent s) (POST_token p)) = true ->
  exists e, attempt w p s = (Ok (Continue e), record_request (POST_token p) s).
Proof.
  unfold moves_on, attempt, try_except, bind, http_send, lift.
  destruct (http w (sent s) (POST_token p)) as [| | |body]; try discriminate.
  - intros _. eexists. reflexivity.
  - destruct (read_token_data body) as [[tok ttl|e]|e]; try discriminate.
    intros _. exists e. reflexivity.
Qed.



End Checks.


(** The text Redis keeps of a truthy credential is not empty. *)
Lemma redis_text_truthy tok text :
  redis_text tok = Some text -> truthy tok = true -> truthy_str text = true.
Proof.
  unfold truthy_str.
  destruct tok as [|b|n|f|t|l|d]; cbn [redis_text truthy]; try discriminate;
    intros H; injection H as <-.
  - intros _. destruct (String.eqb (str_of_int n) "") eqn:E; [|reflexivity].
    apply String.eqb_eq in E. destruct (str_of_int_nonempty n E).
  - intros _. destruct (String.eqb (Float64.repr f) "") eqn:E; [|reflexivity].
    apply String.eqb_eq in E. destruct (Float64Facts.repr_nonempty f E).
  - auto.
Qed.

Lemma storable_redis_text tok :
  storable tok = true -> exists text, redis_text tok = Some text.
Proof. destruct tok; try discriminate; intros _; eexists; reflexivity. Qed.

Lemma aggregate_score_bounds hp mc ws :
  0 <= safety_score (aggregate hp mc ws) <= 100.
Proof.
  unfold aggregate; cbn [safety_score]. destruct hp, mc; lia.
Qed.

(** C1. The report is the aggregate of the two flags and the warnings: safe
    exactly when neither flag is set, scored
    [max(0, 100 - 10*warnings - 80*honeypot - 50*malicious)], for every
    combination of flags and every number of warnings; and
    [run_security_check] returns this aggregate of what its two checks
    leave. *)
Theorem safety_aggregation :
  (forall hp mc ws,
      is_safe (aggregate hp mc ws) = negb hp && negb mc /\
      safety_score (aggregate hp mc ws)
      = Z.max 0 (100 - 10 * Z.of_nat (List.length ws)
                     - 80 * (if hp then 1 else 0)
                     - 50 * (if mc then 1 else 0)) /\
      warnings (aggregate hp mc ws) = ws) /\
  (forall cfg w chain addr st,
      exists s' l',
        security_check_body cfg w chain addr st
        = (Ok (aggregate (l_is_honeypot l') (l_is_malicious_creator l') (l_warnings l')),
           (s', l'))).
Proof.
  split.
  - intros hp mc ws. unfold aggregate; cbn [is_safe safety_score warnings].
    repeat split. destruct hp, mc; f_equal; lia.
  - intros. apply security_check_body_spec.
Qed.


(** C6. The score of the aggregate lies between 0 and 100 for all flags and
    warnings, and so does the score of every report [run_security_check]
    produces (it always produces one). *)
Theorem safety_score_bounds :
  (forall hp mc ws, 0 <= safety_score (aggregate hp mc ws) <= 100) /\
  (forall cfg w chain addr s,
      match fst (run_security_check cfg w chain addr s) with
      | Ok r => 0 <= safety_score r <= 100
      | Raise _ => False
      end).
Proof.
  split; [exact aggregate_score_bounds|].
  intros. destruct (run_security_check_spec cfg w chain addr s) as (hp & mc & ws & s' & E).
  rewrite E. apply aggregate_score_bounds.
Qed.




(** C8, as stated, fails: without credentials and without a cached token
    [_get_access_token] raises; it does not return an empty credential. *)
Lemma get_access_token_unconfigured_counterexample :
  ~ (forall cfg w s,
        truthy_str (api_key cfg) && truthy_str (api_secret cfg) = false ->
        exists t s', _get_access_token cfg w s = (Ok t, s') /\ truthy t = false).
Proof.
  intros H.
  destruct (H unconfigured second_shape_world fresh eq_refl) as (t & s' & E & _).
  vm_compute in E. discriminate E.
Qed.

(** C8, amended. When the key or the secret is not configured,
    [_get_access_token] (Redis up) returns the live cached credential if
    there is one and otherwise raises "credentials not configured";
    [run_security_check] does not call it: it sends its two requests with no
    Authorization header, leaves the cache as it was, and returns a report. *)
Theorem unconfigured_credentials cfg w :
  truthy_str (api_key cfg) && truthy_str (api_secret cfg) = false ->
  (forall s, redis_up w = true ->
     _get_access_token cfg w s
     = match cached_token w s with
       | Some t => (Ok t, s)
       | None => (Raise (PyException "GoPlus API credentials not configured"), s)
       end) /\
  (forall chain addr s,
     exists r,
       run_security_check cfg w chain addr s
       = (Ok r, {| store := store s;
                   sent := sent s ++
                     [GET_token_security chain addr [];
                      GET_address_security "0xc8b759860149542a98a3eb57c14aadf59d6d89b9"
                        chain []] |})).
Proof.
  intros Hcfg. split.
  - intros s Hup. rewrite get_access_token_cached by assumption.
    destruct (cached_token w s); [reflexivity|].
    unfold fetch_access_token. rewrite <- negb_andb, Hcfg. reflexivity.
  - intros chain addr s.
    unfold run_security_check, security_check_body, acquire_token. rewrite Hcfg.
    unfold bind at 1. unfold ret at 1.
    destruct (token_security_check_sends w chain addr VNone s init_locals) as (l1 & E1).
    unfold bind at 1. rewrite E1.
    destruct (address_security_check_sends w chain addr VNone
                (record_request (GET_token_security chain addr (headers_for VNone)) s) l1)
      as (l2 & E2).
    unfold bind at 1. rewrite E2.
    unfold bind, gets, ret. cbn [snd]. eexists.
    unfold record_request; cbn [store sent headers_for truthy]. rewrite <- app_assoc.
    reflexivity.
Qed.

Lemma unconfigured_credentials_witness :
  _get_access_token unconfigured second_shape_world fresh
  = (Raise (PyException "GoPlus API credentials not configured"), fresh) /\
  exists r,
    run_security_check unconfigured second_shape_world "1043" "0xAb" fresh
    = (Ok r, {| store := None;
                sent := [GET_token_security "1043" "0xAb" [];
                         GET_address_security "0xc8b759860149542a98a3eb57c14aadf59d6d89b9"
                           "1043" []] |}).
Proof.
  split.
  - apply (proj1 (unconfigured_credentials unconfigured second_shape_world eq_refl)
             fresh eq_refl).
  - apply (proj2 (unconfigured_credentials unconfigured second_shape_world eq_refl)
             "1043" "0xAb" fresh).
Defined.

(** C9, as stated, fails: an entry that says nothing of [is_open_source]
    (so the flag prints as [None], none of "1", "true", "True") gets no
    "source not verified" warning. *)
Lemma source_warning_counterexample :
  ~ (forall w chain addr tok s l body entry os,
        http w (sent s) (GET_token_security chain addr (headers_for tok)) = Json body ->
        token_security_result body addr = Ok entry ->
        truthy entry = true ->
        get entry "is_open_source" VNone = Ok os ->
        str_in os ["1"; "true"; "True"] = false ->
        In "Contract source code is not verified."
           (l_warnings (snd (snd (token_security_check w chain addr tok (s, l)))))).
Proof.
  intros H.
  specialize (H silent_source_world "1043" "0xAb" VNone fresh no_locals silent_source_body
                (VDict [("is_honeypot", VStr "0")]) VNone
                eq_refl eq_refl eq_refl eq_refl eq_refl).
  vm_compute in H. exact H.
Qed.

(** C9, amended. For an entry found for the contract, the warning
    "Contract source code is not verified." is appended exactly when
    [is_open_source] prints as one of "0", "false", "False"; the honeypot
    flag and its warning depend on [is_honeypot] alone (one of "1", "true",
    "True"). *)
Theorem source_not_verified_warning w chain addr tok s l body entry hp os :
  http w (sent s) (GET_token_security chain addr (headers_for tok)) = Json body ->
  token_security_result body addr = Ok entry ->
  truthy entry = true ->
  get entry "is_honeypot" VNone = Ok hp ->
  get entry "is_open_source" VNone = Ok os ->
  token_security_check w chain addr tok (s, l)
  = (Ok tt,
     (record_request (GET_token_security chain addr (headers_for tok)) s,
      {| l_warnings :=
           (l_warnings l
              ++ (if str_in hp ["1"; "true"; "True"]
                  then ["Honeypot detected by GoPlus."] else [])
              ++ (if str_in os ["0"; "false"; "False"]
                  then ["Contract source code is not verified."] else []))%list;
         l_is_honeypot := str_in hp ["1"; "true"; "True"] || l_is_honeypot l;
         l_is_malicious_creator := l_is_malicious_creator l |})).
Proof.
  intros Hh Hr Ht Hhp Hos.
  unfold token_security_check, try_except, bind, on_fst, http_send, lift, getM;
    cbn [fst snd].
  rewrite Hh, Hr. cbv beta iota. rewrite Ht, Hhp, Hos. unfold lift. cbv beta iota.
  destruct l as [ws h m].
  destruct (str_in hp ["1"; "true"; "True"]), (str_in os ["0"; "false"; "False"]);
    cbn; unfold add_warning;
    cbn [l_warnings l_is_honeypot l_is_malicious_creator];
    rewrite ?app_nil_r, <- ?app_assoc; reflexivity.
Qed.

Lemma source_not_verified_warning_witness :
  token_security_check unverified_honeypot_world "1043" "0xAb" VNone (fresh, no_locals)
  = (Ok tt,
     ({| store := None; sent := [GET_token_security "1043" "0xAb" []] |},
      {| l_warnings := ["Honeypot detected by GoPlus.";
                        "Contract source code is not verified."];
         l_is_honeypot := true;
         l_is_malicious_creator := false |})).
Proof.
  apply (source_not_verified_warning unverified_honeypot_world "1043" "0xAb" VNone fresh
           no_locals verified_body (token_entry "1" "0") (VStr "1") (VStr "0"));
    reflexivity.
Defined.

End SecurityServiceFacts.

(** ** Ranking and planning *)

Module ApiFacts.
Import Py SecurityService Api Scenarios.
Import Float64Facts SecurityServiceFacts.

Lemma kept_In cands results :
  kept cands results ->
  forall c, In c results -> exists cand, In cand cands /\ schema_of cand c.
Proof.
  induction 1 as [|cand cands results _ IH|cand cands c0 results Hc _ IH]; intros c Hin.
  - destruct Hin.
  - destruct (IH c Hin) as (x & Hx & Hs). exists x. split; [right|]; assumption.
  - destruct Hin as [<-|Hin].
    + exists cand. split; [left; reflexivity|assumption].
    + destruct (IH c Hin) as (x & Hx & Hs). exists x. split; [right|]; assumption.
Qed.

(** The running maximum: nothing before it reaches it, nothing seen exceeds
    it. *)
Lemma max_from_spec (l : list CandidateSchema) :
  forall before best after,
    (forall c, In c before -> Float64.leb (utility best) (utility c) = false) ->
    (forall c, In c after -> Float64.ltb (utility best) (utility c) = false) ->
    exists l1 l2,
      (before ++ best :: after ++ l = l1 ++ max_from best l :: l2)%list /\
      (forall c, In c (l1 ++ max_from best l :: l2)%list ->
                 Float64.ltb (utility (max_from best l)) (utility c) = false) /\
      (forall c, In c l1 -> Float64.leb (utility (max_from best l)) (utility c) = false).
Proof.
  induction l as [|x l IH]; intros before best after Hb Ha; cbn [max_from].
  - exists before, after. rewrite app_nil_r. split; [reflexivity|]. split; [|exact Hb].
    intros c Hc. apply in_app_or in Hc. destruct Hc as [Hc|[<-|Hc]].
    + destruct (Float64.ltb (utility best) (utility c)) eqn:E; [|reflexivity].
      apply ltb_leb in E. rewrite (Hb c Hc) in E. discriminate.
    + apply ltb_irrefl.
    + apply Ha, Hc.
  - destruct (Float64.ltb (utility best) (utility x)) eqn:Hx.
    + destruct (IH (before ++ best :: after)%list x []) as (l1 & l2 & E & H1 & H2).
      * intros c Hc. apply (ltb_not_leb (utility best)); [exact Hx|].
        apply in_app_or in Hc. destruct Hc as [Hc|[<-|Hc]].
        -- destruct (Float64.ltb (utility best) (utility c)) eqn:E; [|reflexivity].
           apply ltb_leb in E. rewrite (Hb c Hc) in E. discriminate.
        -- apply ltb_irrefl.
        -- apply Ha, Hc.
      * intros c [].
      * exists l1, l2. split; [|split; assumption].
        rewrite <- E. cbn [app]. rewrite <- !app_assoc. reflexivity.
    + destruct (IH before best (after ++ [x])%list) as (l1 & l2 & E & H1 & H2).
      * exact Hb.
      * intros c Hc. apply in_app_or in Hc.
        destruct Hc as [Hc|[<-|[]]]; [apply Ha, Hc|exact Hx].
      * exists l1, l2. split; [|split; assumption].
        rewrite <- E. rewrite <- !app_assoc. reflexivity.
Qed.

Lemma max_by_utility_spec (results : list CandidateSchema) :
  results <> [] ->
  exists chosen l1 l2,
    max_by_utility results = Ok chosen /\
    results = (l1 ++ chosen :: l2)%list /\
    (forall c, In c results -> Float64.ltb (utility chosen) (utility c) = false) /\
    (forall c, In c l1 -> Float64.leb (utility chosen) (utility c) = false).
Proof.
  destruct results as [|c0 l]; [congruence|]. intros _.
  destruct (max_from_spec l [] c0 []) as (l1 & l2 & E & H1 & H2);
    try (intros c []).
  cbn [app] in E. exists (max_from c0 l), l1, l2. cbn [max_by_utility].
  split; [reflexivity|]. split; [exact E|]. split; [|exact H2].
  intros c Hc. apply H1. rewrite <- E. exact Hc.
Qed.

Section PlanningFacts.
Variable cfg : config.
Variable w : world.
Variable uuid4 : nat -> uuid.

(** The loop over the candidates returns: what it adds is made from some of
    the candidates, in their order, and the database is left alone. *)
Lemma check_candidates_spec chain (cands : list candidate) :
  forall acc (st : app),
  exists new st',
    check_candidates cfg w chain cands acc st = (Ok (acc ++ new)%list, st') /\
    kept cands new /\
    snd st' = snd st.
Proof.
  induction cands as [|cand cands IH]; intros acc [s d].
  - exists [], (s, d). cbn [check_candidates]. rewrite app_nil_r.
    repeat split. constructor.
  - cbn [check_candidates]. unfold bind at 1. unfold try_except, bind, on_fst. cbn [fst snd].
    destruct (run_security_check_spec cfg w chain (c_address cand) s)
      as (hp & mc & ws & s' & E).
    rewrite E. unfold ret at 1.
    destruct (negb (is_safe (aggregate hp mc ws))).
    + destruct (IH acc (s', d)) as (new & st' & E' & Hk & Hd).
      exists new, st'. repeat split; auto. constructor. exact Hk.
    + pose proof (aggregate_score_bounds hp mc ws) as Hb.
      destruct (of_int_score _ Hb) as (f & Hf).
      unfold bind, float_of_int. rewrite Hf. unfold ret at 1.
      match goal with
      | |- context [check_candidates _ _ _ _ (acc ++ [?c])%list _] =>
          destruct (IH (acc ++ [c])%list (s', d)) as (new & st' & E' & Hk & Hd);
          exists (c :: new), st'
      end.
      rewrite E', <- app_assoc. repeat split; auto.
      apply kept_take; [|exact Hk].
      unfold schema_of; cbn [address apy protocol safety_score utility].
      repeat split; try apply Hb. exists f. split; [exact Hf|reflexivity].
Qed.

Lemma check_candidates_db chain cands acc st r st' :
  check_candidates cfg w chain cands acc st = (r, st') -> snd st' = snd st.
Proof.
  intros E.
  destruct (check_candidates_spec chain cands acc st) as (new & st2 & E2 & _ & Hd).
  rewrite E in E2. injection E2 as _ <-. exact Hd.
Qed.

Lemma check_candidates_kept chain cands st results st' :
  check_candidates cfg w chain cands [] st = (Ok results, st') -> kept cands results.
Proof.
  intros E.
  destruct (check_candidates_spec chain cands [] st) as (new & st2 & E2 & Hk & _).
  rewrite E in E2. injection E2 as -> _. exact Hk.
Qed.

Lemma plan_with_empty cands intent it st st1 :
  check_candidates cfg w (str_of_int (chain_id intent)) cands [] st = (Ok [], st1) ->
  plan_with cfg w uuid4 cands intent it st
  = (Raise (HttpError 500 no_safe_candidates_message), st1).
Proof.
  intros E. unfold plan_with, bind. rewrite E. reflexivity.
Qed.

(** With a candidate left and [asset] and [amount] readable, the plan is
    built for the maximum and stored. *)
Lemma plan_with_chosen cands intent it st results st1 asset amount :
  check_candidates cfg w (str_of_int (chain_id intent)) cands [] st = (Ok results, st1) ->
  results <> [] ->
  get (intent_json intent) "asset" VNone = Ok asset ->
  get (intent_json intent) "amount" VNone = Ok amount ->
  exists chosen_candidate,
    max_by_utility results = Ok chosen_candidate /\
    In chosen_candidate results /\
    let new_plan :=
      {| plan_id := uuid4 (List.length (plans (snd st)));
         intent := id intent;
         plan_json := build_plan_data chosen_candidate it asset amount (chain_id intent);
         utility_scores := results;
         chosen_contract_address := address chosen_candidate;
         plan_status := READY |} in
    plan_with cfg w uuid4 cands intent it st
    = (Ok {| out_plan_id := plan_id new_plan; candidates := results;
             chosen := chosen_candidate |},
       (fst st1, {| intents := map (set_status (id intent) PLANNED) (intents (snd st));
                    plans := plans (snd st) ++ [new_plan] |})).
Proof.
  intros E Hne Ha Hm.
  destruct (max_by_utility_spec results Hne) as (ch & l1 & l2 & Hmax & Hres & _ & _).
  exists ch. split; [exact Hmax|]. split; [rewrite Hres; apply in_elt|].
  pose proof (check_candidates_db _ _ _ _ _ _ E) as Hd.
  unfold plan_with, bind. rewrite E.
  destruct results as [|c0 rest]; [congruence|].
  unfold lift, getM, lift. rewrite Hmax, Ha, Hm.
  destruct st1 as [s1 d1]. cbn [snd fst] in *. subst d1.
  reflexivity.
Qed.

Lemma plan_intent_found pid st intent it :
  find_intent pid (intents (snd st)) = Some intent ->
  intent_type_of intent st = (Ok it, st) ->
  plan_intent cfg w uuid4 pid st = plan_with cfg w uuid4 (candidates_for it) intent it st.
Proof.
  intros Hf Hit. unfold plan_intent, bind, gets. rewrite Hf.
  fold (@bind app string PlanOutput). unfold bind. rewrite Hit. reflexivity.
Qed.

End PlanningFacts.



(** Two farms tie at 0.56; the first one is chosen. *)
Example two_farms_first_wins :
  List.map utility two_farms_results
  = [Float64.of_ratio 56 100; Float64.of_ratio 56 100] /\
  match max_by_utility two_farms_results with
  | Ok c => address c = "0xA1"
  | Raise _ => False
  end.
Proof. split; vm_compute; reflexivity. Qed.

(** Scenario A: yields 0.12 and 0.05 with scores 100 and 80 give utilities
    0.56 and 0.425. *)
Example scenario_A_utilities :
  Float64.round6 (utility_of (Float64.of_ratio 12 100) (Float64.of_ratio 100 1))
  = Float64.of_ratio 56 100 /\
  Float64.round6 (utility_of (Float64.of_ratio 5 100) (Float64.of_ratio 80 1))
  = Float64.of_ratio 425 1000.
Proof. split; vm_compute; reflexivity. Qed.

(** C3. The plan has exactly two steps, Approve (spender: the chosen
    contract) and then one action on the chosen contract: Lend when the
    chosen protocol is "lending" or the intent type contains "lend", Stake
    otherwise. In [plan_intent] an intent type with "lend" or "borrow" is
    served from the lending whitelist, so there the action is Lend exactly
    when the protocol is lending or the intent type says lend or borrow. *)
Theorem plan_steps :
  (forall chosen_candidate it asset amount chain,
     steps (build_plan_data chosen_candidate it asset amount chain)
     = [Approve asset amount (address chosen_candidate);
        if String.eqb (protocol chosen_candidate) "lending" || contains "lend" it
        then Lend (address chosen_candidate) asset amount
        else Stake (address chosen_candidate) asset amount]) /\
  (forall cfg w uuid4 pid st intent it results st1 asset amount,
     find_intent pid (intents (snd st)) = Some intent ->
     intent_type_of intent st = (Ok it, st) ->
     check_candidates cfg w (str_of_int (chain_id intent)) (candidates_for it) [] st
     = (Ok results, st1) ->
     results <> [] ->
     get (intent_json intent) "asset" VNone = Ok asset ->
     get (intent_json intent) "amount" VNone = Ok amount ->
     exists out p,
       plan_intent cfg w uuid4 pid st
       = (Ok out,
          (fst st1, {| intents := map (set_status (id intent) PLANNED) (intents (snd st));
                       plans := plans (snd st) ++ [p] |})) /\
       max_by_utility results = Ok (chosen out) /\
       chosen_contract_address p = address (chosen out) /\
       steps (plan_json p)
       = [Approve asset amount (address (chosen out));
          if String.eqb (protocol (chosen out)) "lending"
             || contains "lend" it || contains "borrow" it
          then Lend (address (chosen out)) asset amount
          else Stake (address (chosen out)) asset amount]).
Proof.
  split.
  - intros. unfold build_plan_data, action_step; cbn [steps].
    destruct (String.eqb (protocol chosen_candidate) "lending" || contains "lend" it);
      reflexivity.
  - intros cfg w uuid4 pid st intent it results st1 asset amount Hf Hit E Hne Ha Hm.
    destruct (plan_with_chosen cfg w uuid4 _ intent it st results st1 asset amount E Hne Ha Hm)
      as (ch & Hmax & Hin & Hplan).
    rewrite (plan_intent_found cfg w uuid4 pid st intent it Hf Hit).
    cbv zeta in Hplan. rewrite Hplan.
    eexists. eexists. split; [reflexivity|].
    cbn [chosen chosen_contract_address plan_json build_plan_data steps].
    split; [exact Hmax|]. split; [reflexivity|].
    pose proof (check_candidates_kept cfg w _ _ _ _ _ E) as Hk.
    destruct (kept_In _ _ Hk ch Hin) as (cand & Hcand & _ & _ & Hp & _).
    unfold action_step, candidates_for in *.
    destruct (contains "lend" it) eqn:Hl, (contains "borrow" it) eqn:Hb;
      cbn [orb] in *;
      try (destruct (contains "stake" it || contains "farm" it));
      destruct Hcand as [<-|[]]; rewrite Hp; reflexivity.
Qed.

Lemma plan_steps_witness :
  exists out p,
    plan_intent unconfigured (oracle "0") uuids 7%N (start borrow_intent)
    = (Ok out,
       (fst (snd lending_run),
        {| intents := map (set_status (id borrow_intent) PLANNED)
                          (intents (snd (start borrow_intent)));
           plans := plans (snd (start borrow_intent)) ++ [p] |})) /\
    max_by_utility lending_results = Ok (chosen out) /\
    chosen_contract_address p = address (chosen out) /\
    steps (plan_json p)
    = [Approve (VStr "BDAG") (VInt 1000) (address (chosen out));
       if String.eqb (protocol (chosen out)) "lending"
          || contains "lend" "borrow" || contains "borrow" "borrow"
       then Lend (address (chosen out)) (VStr "BDAG") (VInt 1000)
       else Stake (address (chosen out)) (VStr "BDAG") (VInt 1000)].
Proof.
  apply (proj2 plan_steps unconfigured (oracle "0") uuids 7%N (start borrow_intent)
           borrow_intent "borrow" lending_results (snd lending_run)
           (VStr "BDAG") (VInt 1000)).
  - reflexivity.
  - reflexivity.
  - vm_compute. reflexivity.
  - discriminate.
  - reflexivity.
  - reflexivity.
Defined.

(** Scenario D and the borrow intent above: the stored plan lends on the
    lending contract. *)
Example borrow_intent_plan :
  match plan_intent unconfigured (oracle "0") uuids 7%N (start borrow_intent) with
  | (Ok out, (_, db)) =>
      List.map (fun p => steps (plan_json p)) (plans db)
      = [[Approve (VStr "BDAG") (VInt 1000) "0xa23bDd28F9221F275897D8A26A8eb97A341cd257";
          Lend "0xa23bDd28F9221F275897D8A26A8eb97A341cd257" (VStr "BDAG") (VInt 1000)]]
  | _ => False
  end.
Proof. vm_compute. reflexivity. Qed.

(** C4. When the loop leaves no safe candidate, planning ends with
    [HttpError(500, ...)]: [plan_with], for any whitelist, and [plan_intent]
    raise it right after the checks, and the database is as it was (no plan
    stored, the intent's status untouched). *)
Theorem no_safe_candidate_fails :
  (forall cfg w uuid4 cands intent it st st1,
     check_candidates cfg w (str_of_int (chain_id intent)) cands [] st = (Ok [], st1) ->
     plan_with cfg w uuid4 cands intent it st
     = (Raise (HttpError 500 no_safe_candidates_message), st1) /\
     snd st1 = snd st) /\
  (forall cfg w uuid4 pid st intent it st1,
     find_intent pid (intents (snd st)) = Some intent ->
     intent_type_of intent st = (Ok it, st) ->
     check_candidates cfg w (str_of_int (chain_id intent)) (candidates_for it) [] st
     = (Ok [], st1) ->
     plan_intent cfg w uuid4 pid st
     = (Raise (HttpError 500 no_safe_candidates_message), st1) /\
     snd st1 = snd st).
Proof.
  split.
  - intros cfg w uuid4 cands intent it st st1 E. split.
    + apply plan_with_empty, E.
    + exact (check_candidates_db cfg w _ _ _ _ _ _ E).
  - intros cfg w uuid4 pid st intent it st1 Hf Hit E. split.
    + rewrite (plan_intent_found cfg w uuid4 pid st intent it Hf Hit).
      apply plan_with_empty, E.
    + exact (check_candidates_db cfg w _ _ _ _ _ _ E).
Qed.

(** Scenario B: the only farm is a honeypot. *)
Lemma no_safe_candidate_fails_witness :
  plan_intent unconfigured (oracle "1") uuids 7%N (start stake_intent)
  = (Raise (HttpError 500 no_safe_candidates_message), snd honeypot_run) /\
  snd (snd honeypot_run) = snd (start stake_intent).
Proof.
  apply (proj2 no_safe_candidate_fails unconfigured (oracle "1") uuids 7%N (start stake_intent)
           stake_intent "stake_and_compound" (snd honeypot_run)).
  - reflexivity.
  - reflexivity.
  - vm_compute. reflexivity.
Defined.

(** C10. When the lower-cased intent type contains none of "lend",
    "borrow", "stake", "farm", the candidates are the staking farms and
    [plan_intent] goes on with them; an intent whose JSON is empty or has no
    [intent_type] has the empty intent type and so falls under this. *)
Theorem unclear_intent_defaults_to_staking :
  (forall cfg w uuid4 pid st intent it,
     find_intent pid (intents (snd st)) = Some intent ->
     intent_type_of intent st = (Ok it, st) ->
     contains "lend" it = false -> contains "borrow" it = false ->
     contains "stake" it = false -> contains "farm" it = false ->
     candidates_for it = CANDIDATE_FARMS /\
     plan_intent cfg w uuid4 pid st = plan_with cfg w uuid4 CANDIDATE_FARMS intent it st) /\
  (forall intent st,
     truthy (intent_json intent) = false \/
     (exists d, intent_json intent = VDict d /\ lookup "intent_type" d = None) ->
     intent_type_of intent st = (Ok "", st) /\
     candidates_for "" = CANDIDATE_FARMS).
Proof.
  split.
  - intros cfg w uuid4 pid st intent it Hf Hit Hl Hb Hs Hfa.
    assert (Hc : candidates_for it = CANDIDATE_FARMS).
    { unfold candidates_for. rewrite Hl, Hb, Hs, Hfa. reflexivity. }
    split; [exact Hc|].
    rewrite (plan_intent_found cfg w uuid4 pid st intent it Hf Hit), Hc. reflexivity.
  - intros intent st H. split; [|reflexivity].
    unfold intent_type_of, bind, getM, lift, por.
    destruct H as [H|(d & Hd & Hlk)].
    + rewrite H. reflexivity.
    + rewrite Hd. destruct d as [|b d]; [reflexivity|].
      cbn [truthy get]. rewrite Hlk. reflexivity.
Qed.

(** An intent that was not understood ([{}], status CLARIFY) is planned
    with the staking farms. *)
Lemma unclear_intent_defaults_to_staking_witness :
  (candidates_for "" = CANDIDATE_FARMS /\
   plan_intent unconfigured (oracle "0") uuids 7%N (start clarify_intent)
   = plan_with unconfigured (oracle "0") uuids CANDIDATE_FARMS clarify_intent ""
       (start clarify_intent)) /\
  (intent_type_of clarify_intent (start clarify_intent) = (Ok "", start clarify_intent) /\
   candidates_for "" = CANDIDATE_FARMS).
Proof.
  split.
  - apply (proj1 unclear_intent_defaults_to_staking unconfigured (oracle "0") uuids 7%N
             (start clarify_intent) clarify_intent ""); reflexivity.
  - apply (proj2 unclear_intent_defaults_to_staking clarify_intent (start clarify_intent)).
    right. exists []. split; reflexivity.
Defined.

Example clarify_intent_plan :
  match plan_intent unconfigured (oracle "0") uuids 7%N (start clarify_intent) with
  | (Ok out, (_, db)) =>
      address (chosen out) = "0x1b227DF9c8D34CaB880774737FBf426E66Ba98Ed" /\
      List.map (fun p => steps (plan_json p)) (plans db)
      = [[Approve VNone VNone "0x1b227DF9c8D34CaB880774737FBf426E66Ba98Ed";
          Stake "0x1b227DF9c8D34CaB880774737FBf426E66Ba98Ed" VNone VNone]]
  | _ => False
  end.
Proof. vm_compute. split; reflexivity. Qed.

End ApiFacts.

(** ** More on the security service *)

Module SecurityServiceMore.
Import Py SecurityService PyFacts Scenarios ApiParse Observations MoreScenarios.
Import SecurityServiceFacts.

Section Outcomes.
Variable cfg : config.
Variable w : world.

(** The token-security check sends its request and leaves one of six
    outcomes in the local variables. *)
Lemma token_security_check_outcome chain addr tok s l :
  exists hp ws,
    token_security_check w chain addr tok (s, l)
    = (Ok tt,
       (record_request (GET_token_security chain addr (headers_for tok)) s,
        {| l_warnings := l_warnings l ++ ws;
           l_is_honeypot := hp || l_is_honeypot l;
           l_is_malicious_creator := l_is_malicious_creator l |})) /\
    In (hp, ws) token_check_outcomes.
Proof.
  unfold token_security_check, try_except, bind, on_fst, http_send, lift, getM;
    cbn [fst snd].
  destruct (http w (sent s) _) as [| | |body]; try (exists false; eexists; split;
    [|do 3 right; left; reflexivity]; destruct l; reflexivity).
  destruct (token_security_result body addr) as [entry|e];
    [|exists false; eexists; split; [|do 3 right; left; reflexivity];
      destruct e, l; reflexivity].
  destruct (truthy entry);
    [|exists false; eexists; split; [|do 2 right; left; reflexivity];
      destruct l; reflexivity].
  destruct (get entry "is_honeypot" VNone) as [hp|e];
    [|exists false; eexists; split; [|do 3 right; left; reflexivity];
      destruct e, l; reflexivity].
  destruct (get entry "is_open_source" VNone) as [os|e];
    [|exists false; eexists; split; [|do 3 right; left; reflexivity];
      destruct e, l; reflexivity].
  unfold lift; cbv beta iota.
  destruct (str_in hp ["1"; "true"; "True"]), (str_in os ["0"; "false"; "False"]).
  - exists true; eexists; split; [|do 5 right; left; reflexivity].
    destruct l; cbn; unfold add_warning; cbn; rewrite <- app_assoc; reflexivity.
  - exists true; eexists; split; [|do 4 right; left; reflexivity].
    destruct l; reflexivity.
  - exists false; eexists; split; [|do 1 right; left; reflexivity].
    destruct l; reflexivity.
  - exists false; eexists; split; [|left; reflexivity].
    destruct l; cbn; rewrite app_nil_r; reflexivity.
Qed.

Lemma address_security_check_outcome chain addr tok s l :
  exists mc ws,
    address_security_check w chain addr tok (s, l)
    = (Ok tt,
       (record_request (deployer_request chain tok) s,
        {| l_warnings := l_warnings l ++ ws;
           l_is_honeypot := l_is_honeypot l;
           l_is_malicious_creator := mc || l_is_malicious_creator l |})) /\
    In (mc, ws) address_check_outcomes.
Proof.
  unfold address_security_check, try_except, bind, on_fst, http_send, lift, getM,
    deployer_request;
    cbn [_find_deployer_address truthy_str String.eqb negb fst snd].
  destruct (http w (sent s) _) as [| | |body]; try (exists false; eexists; split;
    [|do 1 right; left; reflexivity]; destruct l; reflexivity).
  destruct (address_security_result body) as [entry|e];
    [|exists false; eexists; split; [|do 1 right; left; reflexivity];
      destruct e, l; reflexivity].
  destruct (truthy entry);
    [|exists false; eexists; split; [|left; reflexivity];
      destruct l; cbn; rewrite app_nil_r; reflexivity].
  destruct (get entry "honeypot_related_address" VNone) as [hp|e];
    [|exists false; eexists; split; [|do 1 right; left; reflexivity];
      destruct e, l; reflexivity].
  unfold lift; cbv beta iota.
  destruct (str_in hp ["1"; "true"; "True"]).
  - exists true; eexists; split; [|do 2 right; left; reflexivity].
    destruct l; reflexivity.
  - exists false; eexists; split; [|left; reflexivity].
    destruct l; cbn; rewrite app_nil_r; reflexivity.
Qed.

(** Getting the token never touches the local variables and never raises. *)
Lemma acquire_token_spec s l :
  exists tok s1,
    acquire_token cfg w (s, l) = (Ok tok, (s1, l)) /\
    (truthy_str (api_key cfg) && truthy_str (api_secret cfg) = false ->
     tok = VNone /\ s1 = s) /\
    (truthy_str (api_key cfg) && truthy_str (api_secret cfg) = true ->
     match _get_access_token cfg w s with
     | (Ok t, s') => tok = t /\ s1 = s'
     | (Raise _, s') => tok = VNone /\ s1 = s'
     end).
Proof.
  unfold acquire_token, try_except, on_fst.
  destruct (truthy_str (api_key cfg) && truthy_str (api_secret cfg)).
  - cbv beta iota delta [fst snd].
    destruct (_get_access_token cfg w s) as [[t|e] s'].
    + exists t, s'. split; [reflexivity|]. split; [intros H; discriminate H|auto].
    + exists VNone, s'. split; [reflexivity|]. split; [intros H; discriminate H|auto].
  - exists VNone, s. split; [reflexivity|]. split; [auto|intros H; discriminate H].
Qed.

(** A run: the token, then the two requests with the same headers, then the
    aggregate of one outcome of each check. *)
Lemma run_security_check_shape chain addr s :
  exists tok s1 t a,
    acquire_token cfg w (s, init_locals) = (Ok tok, (s1, init_locals)) /\
    In t token_check_outcomes /\ In a address_check_outcomes /\
    run_security_check cfg w chain addr s
    = (Ok (aggregate (fst t) (fst a) (snd t ++ snd a)),
       {| store := store s1;
          sent := sent s1 ++ [GET_token_security chain addr (headers_for tok);
                              deployer_request chain tok] |}).
Proof.
  destruct (acquire_token_spec s init_locals) as (tok & s1 & E0 & _).
  destruct (token_security_check_outcome chain addr tok s1 init_locals)
    as (hp & ws1 & E1 & H1).
  match type of E1 with _ = (_, (?s2, ?l2)) =>
    destruct (address_security_check_outcome chain addr tok s2 l2)
      as (mc & ws2 & E2 & H2)
  end.
  exists tok, s1, (hp, ws1), (mc, ws2). repeat split; auto.
  unfold run_security_check, security_check_body.
  unfold bind at 1. rewrite E0. unfold bind at 1. rewrite E1.
  unfold bind at 1. rewrite E2. unfold bind, gets, ret.
  cbn [fst snd l_warnings l_is_honeypot l_is_malicious_creator init_locals app orb].
  rewrite !orb_false_r. unfold record_request; cbn [store sent].
  rewrite <- app_assoc. reflexivity.
Qed.

Lemma run_security_check_enumerated chain addr s :
  exists r s', run_security_check cfg w chain addr s = (Ok r, s') /\ In r possible_reports.
Proof.
  destruct (run_security_check_shape chain addr s) as (tok & s1 & t & a & _ & Ht & Ha & E).
  eexists. eexists. split; [exact E|].
  unfold possible_reports. apply in_flat_map. exists t. split; [exact Ht|].
  apply in_map_iff. exists a. split; [reflexivity|exact Ha].
Qed.

End Outcomes.

Lemma acquire_token_used cfg w s l :
  acquire_token cfg w (s, l)
  = (Ok (fst (token_used cfg w s)), (snd (token_used cfg w s), l)).
Proof.
  destruct (acquire_token_spec cfg w s l) as (tok & s1 & E & Hoff & Hon).
  rewrite E. unfold token_used.
  destruct (truthy_str (api_key cfg) && truthy_str (api_secret cfg)).
  - specialize (Hon eq_refl).
    destruct (_get_access_token cfg w s) as [[t|e] s']; destruct Hon as [-> ->]; reflexivity.
  - destruct (Hoff eq_refl) as [-> ->]. reflexivity.
Qed.

Lemma get_access_token_redis_down cfg w s :
  redis_up w = false -> _get_access_token cfg w s = (Raise RedisError, s).
Proof.
  intros H. unfold _get_access_token, bind, redis_get. rewrite H. reflexivity.
Qed.

(** X1. Whatever the oracle answers, a run sends the token-security request
    and then the address-security request, both with the headers of the same
    credential, and the checks leave the cache as getting the credential left
    it. *)
Theorem security_check_requests cfg w chain addr s :
  exists r,
    run_security_check cfg w chain addr s
    = (Ok r,
       {| store := store (snd (token_used cfg w s));
          sent := sent (snd (token_used cfg w s)) ++
                  [GET_token_security chain addr (headers_for (fst (token_used cfg w s)));
                   deployer_request chain (fst (token_used cfg w s))] |}).
Proof.
  destruct (run_security_check_shape cfg w chain addr s) as (tok & s1 & t & a & E0 & _ & _ & E).
  rewrite acquire_token_used in E0. injection E0 as <- <-.
  eexists. exact E.
Qed.

(** X2. When Redis does not answer, the run still returns a report: no token
    is requested, both checks go out without an Authorization header, and
    nothing in the report tells of it (it is one of the reports a run with
    Redis up can give). *)
Theorem redis_outage_is_silent cfg w chain addr s :
  redis_up w = false ->
  exists r,
    run_security_check cfg w chain addr s
    = (Ok r, {| store := store s;
                sent := sent s ++ [GET_token_security chain addr [];
                                   deployer_request chain VNone] |}) /\
    In r possible_reports.
Proof.
  intros Hdown.
  destruct (run_security_check_shape cfg w chain addr s) as (tok & s1 & t & a & E0 & Ht & Ha & E).
  rewrite acquire_token_used in E0. injection E0 as <- <-.
  assert (Hu : token_used cfg w s = (VNone, s)).
  { unfold token_used. rewrite (get_access_token_redis_down cfg w s Hdown).
    destruct (truthy_str (api_key cfg) && truthy_str (api_secret cfg)); reflexivity. }
  rewrite Hu in E. cbn [fst snd headers_for truthy] in E.
  eexists. split; [exact E|].
  unfold possible_reports. apply in_flat_map. exists t. split; [exact Ht|].
  apply in_map_iff. exists a. split; [reflexivity|exact Ha].
Qed.

Lemma redis_outage_is_silent_witness :
  exists r,
    run_security_check configured redis_down_world "1043" "0xAb" fresh
    = (Ok r, {| store := None;
                sent := [GET_token_security "1043" "0xAb" [];
                         deployer_request "1043" VNone] |}) /\
    In r possible_reports.
Proof.
  apply (redis_outage_is_silent configured redis_down_world "1043" "0xAb" fresh).
  reflexivity.
Defined.

(** X3. Every report is the aggregate of one of six outcomes of the
    token-security check and one of three outcomes of the address-security
    check: one of eighteen reports. *)
Theorem report_enumeration cfg w chain addr s :
  match fst (run_security_check cfg w chain addr s) with
  | Ok r => In r possible_reports
  | Raise _ => False
  end.
Proof.
  destruct (run_security_check_enumerated cfg w chain addr s) as (r & s' & E & H).
  rewrite E. exact H.
Qed.

(** X4. A safe report has a score of at least 80, at most two warnings and no
    flag warning; an unsafe report has a score of at most 40 and carries the
    warning of the flag that made it unsafe. *)
Theorem safe_score_gap cfg w chain addr s :
  match fst (run_security_check cfg w chain addr s) with
  | Ok r =>
      if is_safe r then
        80 <= safety_score r <= 100 /\
        (List.length (warnings r) <= 2)%nat /\
        existsb flag_warning (warnings r) = false
      else
        0 <= safety_score r <= 40 /\
        existsb flag_warning (warnings r) = true
  | Raise _ => False
  end.
Proof.
  destruct (run_security_check_enumerated cfg w chain addr s) as (r & s' & E & H).
  rewrite E. cbn [fst].
  unfold possible_reports in H. cbv in H.
  repeat (destruct H as [<-|H];
          [cbn [is_safe safety_score warnings]; repeat split;
           solve [lia | reflexivity | repeat constructor]|]).
  destruct H.
Qed.

(** *** Getting the token: refusals, aborts, and what the cache holds after *)

Lemma get_raise v k d e : get v k d = Raise e -> e = AttributeError.
Proof. destruct v; cbn; intros H; inversion H; reflexivity. Qed.

Lemma int_raise v e : int v = Raise e -> e <> HTTPStatusError.
Proof.
  destruct v; cbn; try (intros H; inversion H; discriminate).
  - destruct (Float64.trunc f); [discriminate|].
    destruct (Float64.is_nan f); intros H; inversion H; discriminate.
  - destruct (int_of_str s); intros H; inversion H; discriminate.
Qed.

Lemma ror_raise a b e : ror a b = Raise e -> b = Raise e.
Proof. unfold ror. destruct (truthy a); [discriminate|auto]. Qed.

Lemma access_token_of_raise body e :
  access_token_of body = Raise e -> e <> HTTPStatusError.
Proof.
  unfold access_token_of, rbind.
  destruct (isinstance_dict body); [|discriminate].
  destruct (get body "result" VNone) as [r0|e0] eqn:E0;
    [|intros H; injection H as <-; rewrite (get_raise _ _ _ _ E0); discriminate].
  destruct (ror r0 (get body "data" VNone)) as [res|e1] eqn:E1;
    [|intros H; injection H as <-; apply ror_raise in E1;
      rewrite (get_raise _ _ _ _ E1); discriminate].
  destruct (isinstance_dict res).
  - destruct (get res "access_token" VNone) as [a|e2] eqn:E2;
      [|intros H; injection H as <-; rewrite (get_raise _ _ _ _ E2); discriminate].
    destruct (ror a (get res "token" VNone)) as [t|e3] eqn:E3; [discriminate|].
    intros H; injection H as <-. apply ror_raise in E3.
    rewrite (get_raise _ _ _ _ E3); discriminate.
  - destruct (get body "access_token" VNone) as [a|e2] eqn:E2;
      [|intros H; injection H as <-; rewrite (get_raise _ _ _ _ E2); discriminate].
    destruct (ror a (get body "token" VNone)) as [t|e3] eqn:E3; [discriminate|].
    intros H; injection H as <-. apply ror_raise in E3.
    rewrite (get_raise _ _ _ _ E3); discriminate.
Qed.

Lemma expires_in_of_raise body res e :
  expires_in_of body res = Raise e -> e <> HTTPStatusError.
Proof.
  unfold expires_in_of, rbind.
  destruct (get body "expires_in" (VInt 3600)) as [e0|e1] eqn:E0;
    [|intros H; injection H as <-; rewrite (get_raise _ _ _ _ E0); discriminate].
  destruct (isinstance_dict res); [|discriminate].
  intros H. rewrite (get_raise _ _ _ _ H). discriminate.
Qed.

(** Reading a token response raises no HTTPStatusError, and the error it
    keeps for a body without a credential is a plain exception. *)
Lemma read_token_data_errors body :
  match read_token_data body with
  | Raise e => e <> HTTPStatusError
  | Ok (NoCredential e) => exists what, e = PyException what
  | Ok (Credential tok ttl) => truthy tok = true /\ 60 <= ttl
  end.
Proof.
  unfold read_token_data, rbind.
  destruct (get body "code" VNone) as [code|e0] eqn:E0;
    [|rewrite (get_raise _ _ _ _ E0); discriminate].
  destruct (truthy code && negb (eq_one code)); [eexists; reflexivity|].
  destruct (access_token_of body) as [[tok res]|e1] eqn:E1;
    [|exact (access_token_of_raise _ _ E1)].
  destruct (truthy tok) eqn:Ht; [|eexists; reflexivity].
  destruct (expires_in_of body res) as [ex|e2] eqn:E2;
    [|exact (expires_in_of_raise _ _ _ E2)].
  destruct (int ex) as [n|e3] eqn:E3; [|exact (int_raise _ _ E3)].
  split; [exact Ht|lia].
Qed.

Section Acquisition.
Variable cfg : config.
Variable w : world.

(** One turn on an answer the loop moves on from: the error kept is the one
    [refusal] names once the outer handler has rewritten a status error. *)
Lemma attempt_refused p s :
  moves_on (http w (sent s) (POST_token p)) = true ->
  exists e,
    attempt w p s = (Ok (Continue e), record_request (POST_token p) s) /\
    match e with
    | HTTPStatusError => PyException "Failed to get GoPlus access token"
    | _ => e
    end = refusal (http w (sent s) (POST_token p)).
Proof.
  unfold moves_on, refusal, attempt, try_except, bind, http_send, lift.
  destruct (http w (sent s) (POST_token p)) as [| | |body]; try discriminate.
  - intros _. eexists. split; reflexivity.
  - pose proof (read_token_data_errors body) as Hr.
    destruct (read_token_data body) as [[tok ttl|e]|e]; try discriminate.
    intros _. exists e. split; [reflexivity|].
    destruct Hr as (what & ->). reflexivity.
Qed.

Lemma attempt_aborts p s e :
  aborts (http w (sent s) (POST_token p)) = Some e ->
  attempt w p s = (Raise e, record_request (POST_token p) s).
Proof.
  unfold aborts, attempt, try_except, bind, http_send, lift.
  destruct (http w (sent s) (POST_token p)) as [| | |body]; try discriminate.
  - intros H; injection H as <-. reflexivity.
  - intros H; injection H as <-. reflexivity.
  - pose proof (read_token_data_errors body) as Hr.
    destruct (read_token_data body) as [r|e']; [discriminate|].
    intros H; injection H as <-. destruct e'; try reflexivity. congruence.
Qed.

(** What one turn can come to. *)
Lemma attempt_inv p s r s1 :
  attempt w p s = (r, s1) ->
  match r with
  | Ok (Return tok) =>
      exists ttl, 60 <= ttl /\ truthy tok = true /\ storable tok = true /\
                  s1 = {| store := Some (tok, now w + ttl);
                          sent := sent s ++ [POST_token p] |}
  | Ok (Continue _) => s1 = record_request (POST_token p) s
  | Raise _ => s1 = record_request (POST_token p) s
  end.
Proof.
  unfold attempt, try_except, bind, http_send, lift, redis_set, ret, raise.
  destruct (http w (sent s) (POST_token p)) as [| | |body];
    try (intros H; injection H as <- <-; reflexivity).
  pose proof (read_token_data_errors body) as Hr.
  destruct (read_token_data body) as [[tok ttl|e]|e].
  - cbn [record_request store sent].
    destruct (redis_up w);
      [destruct (storable tok) eqn:Hst; [destruct (expire_accepted (now w) ttl)|]|];
      intros H; injection H as <- <-; try reflexivity.
    destruct Hr as [Ht Httl]. exists ttl. auto.
  - intros H; injection H as <- <-. reflexivity.
  - destruct e; intros H; injection H as <- <-; reflexivity.
Qed.

Lemma try_payloads_inv payloads :
  forall last_error s r s1,
    try_payloads w payloads last_error s = (r, s1) ->
    match r with
    | Ok tok => exists ttl, 60 <= ttl /\ truthy tok = true /\ storable tok = true /\
                            store s1 = Some (tok, now w + ttl)
    | Raise _ => store s1 = store s
    end.
Proof.
  induction payloads as [|p rest IH]; intros last_error s r s1; cbn [try_payloads].
  - destruct last_error; unfold raise; intros H; injection H as <- <-; reflexivity.
  - unfold bind. destruct (attempt w p s) as [[[tok|e]|e] s2] eqn:Ea;
      pose proof (attempt_inv p s _ _ Ea) as Hi; cbn in Hi.
    + unfold ret. intros H; injection H as <- <-.
      destruct Hi as (ttl & Httl & Ht & Hst & ->). exists ttl. auto.
    + intros H. specialize (IH _ _ _ _ H). subst s2.
      destruct r; exact IH.
    + intros H; injection H as <- <-. subst s2. reflexivity.
Qed.

Lemma try_payloads_aborts (k : nat) :
  forall payloads s last_error e,
    (k < List.length payloads)%nat ->
    (forall j, (j < k)%nat -> moves_on (answer w payloads s j) = true) ->
    aborts (answer w payloads s k) = Some e ->
    try_payloads w payloads last_error s
    = (Raise e, {| store := store s;
                   sent := sent s ++ map POST_token (firstn (S k) payloads) |}).
Proof.
  induction k as [|k IH]; intros payloads s last_error e Hlen Hsoft Hk;
    destruct payloads as [|p rest]; cbn [List.length] in Hlen; try lia.
  - unfold answer in Hk. cbn [firstn map nth] in Hk. rewrite app_nil_r in Hk.
    cbn [try_payloads]. unfold bind. rewrite (attempt_aborts p s e Hk). reflexivity.
  - cbn [try_payloads]. unfold bind.
    assert (H0 : moves_on (http w (sent s) (POST_token p)) = true).
    { specialize (Hsoft 0%nat ltac:(lia)). unfold answer in Hsoft.
      cbn [firstn map nth] in Hsoft. rewrite app_nil_r in Hsoft. exact Hsoft. }
    destruct (attempt_moves_on w p s H0) as (e0 & He). rewrite He.
    rewrite (IH rest (record_request (POST_token p) s) (Some e0) e).
    + unfold record_request; cbn [sent store]. rewrite <- app_assoc. reflexivity.
    + lia.
    + intros j Hj. specialize (Hsoft (S j) ltac:(lia)).
      unfold answer in *. unfold record_request; cbn [sent].
      rewrite <- app_assoc. exact Hsoft.
    + unfold answer in *. unfold record_request; cbn [sent].
      rewrite <- app_assoc. exact Hk.
Qed.

End Acquisition.

Lemma aborts_not_status o e : aborts o = Some e -> e <> HTTPStatusError.
Proof.
  unfold aborts. destruct o as [| | |body]; try discriminate;
    try (intros H; injection H as <-; discriminate).
  pose proof (read_token_data_errors body) as Hr.
  destruct (read_token_data body); [discriminate|].
  intros H; injection H as <-. exact Hr.
Qed.

Lemma refusal_not_status o : moves_on o = true -> refusal o <> HTTPStatusError.
Proof.
  unfold moves_on, refusal. destruct o as [| | |body]; try discriminate.
  pose proof (read_token_data_errors body) as Hr.
  destruct (read_token_data body) as [[tok ttl|e]|e]; try discriminate.
  intros _. destruct Hr as (what & ->). discriminate.
Qed.

(** What a call of [_get_access_token] leaves in the cache. *)
Lemma get_access_token_inv cfg w s :
  match _get_access_token cfg w s with
  | (Raise _, s1) => store s1 = store s
  | (Ok tok, s1) =>
      (s1 = s /\ cached_token w s = Some tok) \/
      (cached_token w s = None /\
       exists ttl, 60 <= ttl /\ truthy tok = true /\ storable tok = true /\
                   store s1 = Some (tok, now w + ttl))
  end.
Proof.
  destruct (redis_up w) eqn:Hup;
    [|rewrite (get_access_token_redis_down cfg w s Hup); reflexivity].
  rewrite (get_access_token_cached cfg w s Hup).
  destruct (cached_token w s) as [t|] eqn:Hc; [left; auto|].
  unfold fetch_access_token.
  destruct (negb (truthy_str (api_key cfg)) || negb (truthy_str (api_secret cfg)));
    [reflexivity|].
  unfold try_except.
  destruct (try_payloads w (auth_payloads cfg) None s) as [[tok|e] s1] eqn:E;
    pose proof (try_payloads_inv w _ _ _ _ _ E) as Hi; cbn in Hi.
  - right. auto.
  - destruct e; exact Hi.
Qed.

(** X5. When every payload is answered with an error status, an API error
    code or a body without a credential, the acquisition raises the error of
    the last answer (a status error reworded by the outer handler), having
    posted the three payloads in order and left the cache alone. *)
Theorem all_shapes_refused cfg w s :
  redis_up w = true ->
  cached_token w s = None ->
  truthy_str (api_key cfg) = true -> truthy_str (api_secret cfg) = true ->
  (forall j, (j < 3)%nat -> moves_on (answer w (auth_payloads cfg) s j) = true) ->
  _get_access_token cfg w s
  = (Raise (refusal (answer w (auth_payloads cfg) s 2)),
     {| store := store s; sent := sent s ++ map POST_token (auth_payloads cfg) |}).
Proof.
  intros Hup Hmiss Hkey Hsec Hall.
  rewrite (get_access_token_cached cfg w s Hup), Hmiss.
  unfold fetch_access_token. rewrite Hkey, Hsec. cbn [negb orb].
  pose proof (Hall 0%nat ltac:(lia)) as H0.
  pose proof (Hall 1%nat ltac:(lia)) as H1.
  pose proof (Hall 2%nat ltac:(lia)) as H2.
  pose proof (refusal_not_status _ H2) as Hns.
  unfold answer in *. unfold auth_payloads in *. cbn [firstn map nth] in *.
  rewrite app_nil_r in H0.
  unfold try_except. cbn [try_payloads]. unfold bind.
  destruct (attempt_refused w _ s H0) as (e0 & E0 & _). rewrite E0.
  match type of E0 with _ = (_, ?s1) =>
    assert (H1' : moves_on (http w (sent s1)
                    (POST_token [("appKey", api_key cfg); ("appSecret", api_secret cfg)]))
                  = true) by exact H1;
    destruct (attempt_refused w _ s1 H1') as (e1 & E1 & _)
  end.
  rewrite E1.
  match type of E1 with _ = (_, ?s2) =>
    assert (H2' : moves_on (http w (sent s2)
                    (POST_token [("api_key", api_key cfg); ("api_secret", api_secret cfg)]))
                  = true)
      by (unfold record_request; cbn [sent]; rewrite <- app_assoc; exact H2);
    destruct (attempt_refused w _ s2 H2') as (e2 & E2 & R2)
  end.
  rewrite E2. unfold raise.
  unfold record_request in R2; cbn [sent] in R2. rewrite <- app_assoc in R2.
  cbn [app] in R2.
  unfold record_request; cbn [store sent]. rewrite <- !app_assoc. cbn [app].
  destruct e2; rewrite <- R2; reflexivity.
Qed.

Lemma all_shapes_refused_witness :
  _get_access_token configured refusing_world fresh
  = (Raise (PyException "Could not extract access token from response"),
     {| store := None;
        sent := [POST_token [("app_key", "key"); ("app_secret", "secret")];
                 POST_token [("appKey", "key"); ("appSecret", "secret")];
                 POST_token [("api_key", "key"); ("api_secret", "secret")]] |}).
Proof.
  apply (all_shapes_refused configured refusing_world fresh); try reflexivity.
  intros j Hj.
  destruct j as [|[|[|j]]]; [reflexivity|reflexivity|reflexivity|lia].
Defined.

(** X6. A connection error, an undecodable body or a body that cannot be
    read ends the acquisition at once: the error is raised as it is, the
    later payloads are not posted, the cache is left alone. (The expiry of
    the body, when a text, is taken to be ASCII.) *)
Theorem hard_failure_aborts cfg w s k e :
  redis_up w = true ->
  cached_token w s = None ->
  truthy_str (api_key cfg) = true -> truthy_str (api_secret cfg) = true ->
  (k < 3)%nat ->
  (forall j, (j < k)%nat -> moves_on (answer w (auth_payloads cfg) s j) = true) ->
  expiry_is_plain (answer w (auth_payloads cfg) s k) = true ->
  aborts (answer w (auth_payloads cfg) s k) = Some e ->
  _get_access_token cfg w s
  = (Raise e,
     {| store := store s;
        sent := sent s ++ map POST_token (firstn (S k) (auth_payloads cfg)) |}).
Proof.
  intros Hup Hmiss Hkey Hsec Hk Hsoft _ Hab.
  rewrite (get_access_token_cached cfg w s Hup), Hmiss.
  unfold fetch_access_token. rewrite Hkey, Hsec. cbn [negb orb].
  unfold try_except.
  rewrite (try_payloads_aborts w k (auth_payloads cfg) s None e); auto.
  pose proof (aborts_not_status _ _ Hab) as Hns.
  destruct e; try reflexivity. congruence.
Qed.

Lemma hard_failure_aborts_witness :
  _get_access_token configured garbled_second_world fresh
  = (Raise JSONDecodeError,
     {| store := None;
        sent := [POST_token [("app_key", "key"); ("app_secret", "secret")];
                 POST_token [("appKey", "key"); ("appSecret", "secret")]] |}).
Proof.
  apply (hard_failure_aborts configured garbled_second_world fresh 1%nat JSONDecodeError);
    try reflexivity.
  - lia.
  - intros j Hj. assert (j = 0%nat) by lia. subst j. reflexivity.
Defined.

(** X7. A call that raises leaves the cache entry as it was; a call that
    returns either served the live entry and changed nothing, or wrote the
    credential it returns with a time to live of at least 60 seconds. *)
Theorem acquisition_and_cache cfg w s :
  match _get_access_token cfg w s with
  | (Raise _, s1) => store s1 = store s
  | (Ok tok, s1) =>
      (s1 = s /\ cached_token w s = Some tok) \/
      (cached_token w s = None /\
       exists ttl, 60 <= ttl /\ truthy tok = true /\ store s1 = Some (tok, now w + ttl))
  end.
Proof.
  pose proof (get_access_token_inv cfg w s) as H.
  destruct (_get_access_token cfg w s) as [[tok|e] s1]; [|exact H].
  destruct H as [H|(Hmiss & ttl & Httl & Ht & _ & Hs)]; [left; exact H|].
  right. split; [exact Hmiss|]. exists ttl. auto.
Qed.

(** X8. A credential fetched on a miss is served from the cache by every
    call in the next 60 seconds (Redis up), whatever the configuration and
    the oracle then are, and nothing is sent. What is served is the text
    Redis keeps of the credential: the credential itself when it is a text,
    its [repr] when the oracle handed out a number. *)
Theorem fetched_token_is_reused cfg w s tok s1 :
  cached_token w s = None ->
  _get_access_token cfg w s = (Ok tok, s1) ->
  exists text,
    redis_text tok = Some text /\
    forall cfg' w',
      redis_up w' = true ->
      now w' < now w + 60 ->
      _get_access_token cfg' w' s1 = (Ok (VStr text), s1).
Proof.
  intros Hmiss E.
  pose proof (get_access_token_inv cfg w s) as Hi. rewrite E in Hi.
  destruct Hi as [[_ Hc]|(_ & ttl & Httl & Ht & Hst & Hs)]; [congruence|].
  destruct (storable_redis_text tok Hst) as (text & Htext).
  exists text. split; [exact Htext|].
  intros cfg' w' Hup Hnow.
  rewrite (get_access_token_cached cfg' w' s1 Hup).
  unfold cached_token. rewrite Hs, Htext, (redis_text_truthy tok text Htext Ht).
  replace (now w' <? now w + ttl) with true by (symmetry; apply Z.ltb_lt; lia).
  reflexivity.
Qed.

Lemma fetched_token_is_reused_witness :
  _get_access_token unconfigured (later numeric_token_world 59) numeric_token_cached
  = (Ok (VStr "12345"), numeric_token_cached).
Proof.
  destruct (fetched_token_is_reused configured numeric_token_world fresh (VInt 12345)
              numeric_token_cached eq_refl eq_refl) as (text & Ht & H).
  vm_compute in Ht. injection Ht as <-.
  apply H; [reflexivity|vm_compute; reflexivity].
Defined.

(** X9. A service created with the key or the secret unset or empty in the
    settings never asks for a token: each run sends its two checks without an
    Authorization header and leaves the cache alone. *)
Theorem unset_settings_run_unauthenticated key secret w chain addr s :
  key = None \/ key = Some "" \/ secret = None \/ secret = Some "" ->
  exists r,
    run_security_check (_create_security_service key secret) w chain addr s
    = (Ok r, {| store := store s;
                sent := sent s ++ [GET_token_security chain addr [];
                                   deployer_request chain VNone] |}).
Proof.
  intros H.
  destruct (run_security_check_shape (_create_security_service key secret) w chain addr s)
    as (tok & s1 & t & a & E0 & _ & _ & E).
  rewrite acquire_token_used in E0. injection E0 as <- <-.
  assert (Hu : token_used (_create_security_service key secret) w s = (VNone, s)).
  { unfold token_used, _create_security_service; cbn [api_key api_secret].
    destruct H as [-> | [-> | [-> | ->]]]; cbn; rewrite ?andb_false_r; reflexivity. }
  rewrite Hu in E. cbn [fst snd headers_for truthy] in E.
  eexists. exact E.
Qed.

Lemma unset_settings_run_unauthenticated_witness :
  exists r,
    run_security_check (_create_security_service (Some "key") None) (oracle "0")
      "1043" "0xAb" fresh
    = (Ok r, {| store := None;
                sent := [GET_token_security "1043" "0xAb" [];
                         deployer_request "1043" VNone] |}).
Proof.
  apply (unset_settings_run_unauthenticated (Some "key") None (oracle "0") "1043" "0xAb" fresh).
  right. right. left. reflexivity.
Defined.

Lemma safe_report_facts r :
  In r possible_reports -> is_safe r = true ->
  80 <= safety_score r <= 100 /\
  (List.length (warnings r) <= 2)%nat /\
  existsb flag_warning (warnings r) = false.
Proof.
  intros H. unfold possible_reports in H. cbv in H.
  repeat (destruct H as [<-|H];
          [cbn [is_safe safety_score warnings]; intros Hs; try discriminate Hs;
           repeat split; solve [lia | reflexivity | repeat constructor]|]).
  destruct H.
Qed.

Lemma lookup_truthy_dict k (d : list (string * value)) v :
  lookup k d = Some v -> truthy (VDict d) = true.
Proof. destruct d; [discriminate|reflexivity]. Qed.

(** X10. The entry of a token-security response is found under the
    lower-cased address or, failing that, under the address as given, in
    [result] at the top level or, failing that, in [data.result]; when the
    container has neither key the reading is [None] and the check warns that
    no report could be retrieved. *)
Theorem token_entry_lookup body_d d addr :
  ((lookup "result" body_d = Some (VDict d) /\ d <> []) \/
   (match lookup "result" body_d with
    | Some v => truthy v = false
    | None => True
    end /\
    exists data_d, lookup "data" body_d = Some (VDict data_d) /\
                   lookup "result" data_d = Some (VDict d))) ->
  (forall entry,
     truthy entry = true ->
     lookup (lower addr) d = Some entry \/
     (match lookup (lower addr) d with
      | Some v => truthy v = false
      | None => True
      end /\ lookup addr d = Some entry) ->
     token_security_result (VDict body_d) addr = Ok entry) /\
  (lookup (lower addr) d = None -> lookup addr d = None ->
   token_security_result (VDict body_d) addr = Ok VNone /\
   forall w chain tok s l,
     http w (sent s) (GET_token_security chain addr (headers_for tok)) = Json (VDict body_d) ->
     token_security_check w chain addr tok (s, l)
     = (Ok tt, (record_request (GET_token_security chain addr (headers_for tok)) s,
                add_warning "Could not retrieve a token security report from GoPlus." l))).
Proof.
  intros Hbody.
  assert (E : token_security_result (VDict body_d) addr
              = ror (match lookup (lower addr) d with Some x => x | None => VNone end)
                    (Ok (match lookup addr d with Some x => x | None => VNone end))).
  { unfold token_security_result, rbind, ror. cbn [get].
    destruct Hbody as [[Hr Hne]|(Hr & dd & Hd & Hdr)].
    - rewrite Hr. destruct d; [congruence|reflexivity].
    - destruct (lookup "result" body_d) as [v|].
      + rewrite Hr, Hd. cbn [get]. rewrite Hdr. destruct d; reflexivity.
      + cbn [truthy]. rewrite Hd. cbn [get]. rewrite Hdr. destruct d; reflexivity. }
  split.
  - intros entry Ht [Hl|[Hl Ha]]; rewrite E; unfold ror.
    + rewrite Hl, Ht. reflexivity.
    + rewrite Ha. destruct (lookup (lower addr) d) as [v|]; [rewrite Hl|]; reflexivity.
  - intros Hl Ha.
    assert (E' : token_security_result (VDict body_d) addr = Ok VNone).
    { rewrite E, Hl, Ha. reflexivity. }
    split; [exact E'|].
    intros w chain tok s l Hh.
    unfold token_security_check, try_except, bind, on_fst, http_send, lift;
      cbn [fst snd].
    rewrite Hh, E'. reflexivity.
Qed.

Lemma token_entry_lookup_witness :
  token_security_result
    (VDict [("code", VInt 1);
            ("data", VDict [("result", VDict [("0xAb", token_entry "0" "1")])])]) "0xAb"
  = Ok (token_entry "0" "1").
Proof.
  apply (proj1 (token_entry_lookup
                  [("code", VInt 1);
                   ("data", VDict [("result", VDict [("0xAb", token_entry "0" "1")])])]
                  [("0xAb", token_entry "0" "1")] "0xAb"
                  (or_intror (conj I (ex_intro _ [("result", VDict [("0xAb", token_entry "0" "1")])]
                                        (conj eq_refl eq_refl)))))
           (token_entry "0" "1") eq_refl).
  right. split; [exact I|reflexivity].
Defined.

Lemma checked_addresses_app l1 l2 :
  checked_addresses (l1 ++ l2) = (checked_addresses l1 ++ checked_addresses l2)%list.
Proof. unfold checked_addresses. apply flat_map_app. Qed.

Lemma try_payloads_checked w payloads :
  forall last_error s r s1,
    try_payloads w payloads last_error s = (r, s1) ->
    checked_addresses (sent s1) = checked_addresses (sent s).
Proof.
  induction payloads as [|p rest IH]; intros last_error s r s1; cbn [try_payloads].
  - destruct last_error; unfold raise; intros H; injection H as <- <-; reflexivity.
  - unfold bind. destruct (attempt w p s) as [[[tok|e]|e] s2] eqn:Ea;
      pose proof (attempt_inv w p s _ _ Ea) as Hi; cbn in Hi.
    + unfold ret. intros H; injection H as <- <-.
      destruct Hi as (ttl & _ & _ & _ & ->). cbn [sent].
      rewrite checked_addresses_app, app_nil_r. reflexivity.
    + intros H. rewrite (IH _ _ _ _ H). subst s2. unfold record_request; cbn [sent].
      rewrite checked_addresses_app, app_nil_r. reflexivity.
    + intros H; injection H as <- <-. subst s2. unfold record_request; cbn [sent].
      rewrite checked_addresses_app, app_nil_r. reflexivity.
Qed.

Lemma token_used_checked cfg w s :
  checked_addresses (sent (snd (token_used cfg w s))) = checked_addresses (sent s).
Proof.
  unfold token_used.
  destruct (truthy_str (api_key cfg) && truthy_str (api_secret cfg)); [|reflexivity].
  unfold _get_access_token, bind, redis_get.
  destruct (redis_up w); [|reflexivity].
  assert (Hf : checked_addresses (sent (snd (let '(r, s') := fetch_access_token cfg w s in
                                            match r with
                                            | Ok t => (t, s')
                                            | Raise _ => (VNone, s')
                                            end)))
               = checked_addresses (sent s)).
  { unfold fetch_access_token.
    destruct (negb (truthy_str (api_key cfg)) || negb (truthy_str (api_secret cfg)));
      [reflexivity|].
    unfold try_except.
    destruct (try_payloads w (auth_payloads cfg) None s) as [[t|e] s1] eqn:E;
      pose proof (try_payloads_checked w _ _ _ _ _ E) as Hc.
    - exact Hc.
    - destruct e; exact Hc. }
  destruct (store s) as [[v e]|]; [|destruct (fetch_access_token cfg w s) as [[t|e] s1]; exact Hf].
  destruct (now w <? e); [|destruct (fetch_access_token cfg w s) as [[t|e'] s1]; exact Hf].
  destruct (redis_text v) as [text|]; cbn [option_map];
    [|destruct (fetch_access_token cfg w s) as [[t|e'] s1]; exact Hf].
  destruct (truthy (VStr text)); [reflexivity|].
  destruct (fetch_access_token cfg w s) as [[t|e'] s1]; exact Hf.
Qed.

(** A run adds the one contract it was asked about to the checked ones. *)
Lemma run_security_check_checked cfg w chain addr s :
  checked_addresses (sent (snd (run_security_check cfg w chain addr s)))
  = (checked_addresses (sent s) ++ [addr])%list.
Proof.
  destruct (run_security_check_shape cfg w chain addr s) as (tok & s1 & t & a & E0 & _ & _ & E).
  rewrite acquire_token_used in E0. injection E0 as <- <-.
  rewrite E. cbn [snd sent]. rewrite checked_addresses_app, token_used_checked.
  reflexivity.
Qed.

End SecurityServiceMore.

(** ** More on planning and parsing *)

Module ApiMore.
Import Py SecurityService Api Scenarios ApiParse Observations MoreScenarios.
Import Float64Facts SecurityServiceFacts ApiFacts SecurityServiceMore.

Lemma get_dict_or_raise (v : value) :
  (exists d, v = VDict d) \/ (isinstance_dict v = false /\
                              forall k default, get v k default = Raise AttributeError).
Proof. destruct v; try (right; split; reflexivity). left. eexists. reflexivity. Qed.

Lemma find_intent_id pid l i : find_intent pid l = Some i -> id i = pid.
Proof.
  induction l as [|x l IH]; cbn [find_intent]; [discriminate|].
  destruct (N.eqb (id x) pid) eqn:E; [|exact IH].
  intros H; injection H as <-. apply N.eqb_eq, E.
Qed.

Lemma find_intent_set_status pid st l :
  forall other,
    find_intent other (map (set_status pid st) l)
    = if N.eqb other pid
      then option_map (set_status pid st) (find_intent other l)
      else find_intent other l.
Proof.
  intros other. induction l as [|x l IH]; cbn [map find_intent].
  - destruct (N.eqb other pid); reflexivity.
  - assert (Hid : id (set_status pid st x) = id x)
      by (unfold set_status; destruct (N.eqb (id x) pid); reflexivity).
    rewrite Hid. destruct (N.eqb (id x) other) eqn:Eo.
    + apply N.eqb_eq in Eo. subst other.
      destruct (N.eqb (id x) pid) eqn:Ex; cbn [option_map]; [reflexivity|].
      unfold set_status. rewrite Ex. reflexivity.
    + exact IH.
Qed.

Lemma find_intent_app_fresh pid l i :
  find_intent pid l = None -> id i = pid -> find_intent pid (l ++ [i]) = Some i.
Proof.
  intros Hn Hi. subst pid. induction l as [|x l IH]; simpl in *.
  - rewrite N.eqb_refl. reflexivity.
  - destruct (N.eqb (id x) (id i)); [discriminate|]. apply IH, Hn.
Qed.

Lemma find_intent_app_found pid l l' i :
  find_intent pid l = Some i -> find_intent pid (l ++ l') = Some i.
Proof.
  induction l as [|x l IH]; simpl; [discriminate|].
  destruct (N.eqb (id x) pid); auto.
Qed.

Section PlanningMore.
Variable cfg : config.
Variable w : world.
Variable uuid4 : nat -> uuid.

(** The loop once more: what it adds is vetted, and each candidate's
    contract is checked once, in order. *)
Lemma check_candidates_more chain (cands : list candidate) :
  forall acc (st : app),
  exists results st',
    check_candidates cfg w chain cands acc st = (Ok results, st') /\
    (forall c, In c results -> In c acc \/ vetted c) /\
    checked_addresses (sent (fst st'))
    = (checked_addresses (sent (fst st)) ++ map c_address cands)%list.
Proof.
  induction cands as [|cand cands IH]; intros acc [s d].
  - exists acc, (s, d). cbn [check_candidates map fst]. rewrite app_nil_r. auto.
  - cbn [check_candidates]. unfold bind at 1. unfold try_except, bind, on_fst. cbn [fst snd].
    destruct (run_security_check_enumerated cfg w chain (c_address cand) s)
      as (r & s' & E & Hr).
    pose proof (run_security_check_checked cfg w chain (c_address cand) s) as Hc.
    rewrite E in *. cbn [snd] in Hc. unfold ret at 1.
    destruct (is_safe r) eqn:Hs; cbn [negb].
    + destruct (safe_report_facts r Hr Hs) as (Hb & Hl & Hf).
      destruct (of_int_score (SecurityService.safety_score r) ltac:(lia)) as (f & Hf').
      unfold bind, float_of_int. rewrite Hf'. unfold ret at 1.
      match goal with
      | |- context [check_candidates _ _ _ _ (acc ++ [?c])%list _] =>
          destruct (IH (acc ++ [c])%list (s', d)) as (results & st' & E' & Hv & Hch)
      end.
      exists results, st'. split; [exact E'|]. split.
      * intros c Hin. destruct (Hv c Hin) as [Ha|Hc']; [|right; exact Hc'].
        apply in_app_or in Ha. destruct Ha as [Ha|[<-|[]]]; [left; exact Ha|].
        right. unfold vetted; cbn [safety_score warnings]. auto.
      * rewrite Hch. cbn [fst map]. rewrite Hc, <- app_assoc. reflexivity.
    + destruct (IH acc (s', d)) as (results & st' & E' & Hv & Hch).
      exists results, st'. split; [exact E'|]. split; [exact Hv|].
      rewrite Hch. cbn [fst map]. rewrite Hc, <- app_assoc. reflexivity.
Qed.

(** Every way [plan_with] can end. *)
Lemma plan_with_inv cands intent it st :
  exists results st1,
    check_candidates cfg w (str_of_int (chain_id intent)) cands [] st = (Ok results, st1) /\
    snd st1 = snd st /\
    match plan_with cfg w uuid4 cands intent it st with
    | (Raise e, st') =>
        st' = st1 /\
        ((results = [] /\ e = HttpError 500 no_safe_candidates_message) \/
         (results <> [] /\ isinstance_dict (intent_json intent) = false /\
          e = AttributeError))
    | (Ok out, st') =>
        results <> [] /\
        candidates out = results /\
        max_by_utility results = Ok (chosen out) /\
        In (chosen out) results /\
        exists asset amount,
          get (intent_json intent) "asset" VNone = Ok asset /\
          get (intent_json intent) "amount" VNone = Ok amount /\
          st' = (fst st1,
                 {| intents := map (set_status (id intent) PLANNED) (intents (snd st));
                    plans := plans (snd st) ++
                      [{| plan_id := out_plan_id out;
                          Api.intent := id intent;
                          plan_json := build_plan_data (chosen out) it asset amount
                                         (chain_id intent);
                          utility_scores := results;
                          chosen_contract_address := address (chosen out);
                          plan_status := READY |}] |}) /\
          out_plan_id out = uuid4 (List.length (plans (snd st)))
    end.
Proof.
  destruct (check_candidates_spec cfg w (str_of_int (chain_id intent)) cands [] st)
    as (results & st1 & E & _ & Hd).
  cbn [app] in E. exists results, st1. split; [exact E|]. split; [exact Hd|].
  destruct results as [|c0 rest].
  - rewrite (plan_with_empty cfg w uuid4 cands intent it st st1 E). auto.
  - destruct (get_dict_or_raise (intent_json intent)) as [(dj & Hj)|(Hnd & Hraise)].
    + assert (Ha : get (intent_json intent) "asset" VNone
                   = Ok (match lookup "asset" dj with Some x => x | None => VNone end))
        by (rewrite Hj; reflexivity).
      assert (Hm : get (intent_json intent) "amount" VNone
                   = Ok (match lookup "amount" dj with Some x => x | None => VNone end))
        by (rewrite Hj; reflexivity).
      destruct (plan_with_chosen cfg w uuid4 cands intent it st (c0 :: rest) st1 _ _ E
                  ltac:(discriminate) Ha Hm) as (ch & Hmax & Hin & Hplan).
      cbv zeta in Hplan. rewrite Hplan. cbn [candidates chosen out_plan_id plan_id].
      split; [discriminate|]. split; [reflexivity|]. split; [exact Hmax|].
      split; [exact Hin|]. eexists. eexists. split; [exact Ha|]. split; [exact Hm|].
      split; reflexivity.
    + unfold plan_with, bind. rewrite E. unfold lift, getM, lift.
      cbn [max_by_utility]. rewrite Hraise.
      split; [reflexivity|]. right. split; [discriminate|]. auto.
Qed.

End PlanningMore.

(** Every way [plan_intent] can end. *)
Lemma plan_intent_inv cfg w uuid4 pid st :
  match find_intent pid (intents (snd st)) with
  | None =>
      plan_intent cfg w uuid4 pid st
      = (Raise (HttpError 404 "Intent with ID {intent_id} not found."), st)
  | Some intent =>
      if is_dict_with_text_type (intent_json intent) then
        exists it,
          intent_type_of intent st = (Ok it, st) /\
          plan_intent cfg w uuid4 pid st
          = plan_with cfg w uuid4 (candidates_for it) intent it st
      else plan_intent cfg w uuid4 pid st = (Raise AttributeError, st)
  end.
Proof.
  unfold plan_intent, bind, gets.
  destruct (find_intent pid (intents (snd st))) as [intent|]; [|reflexivity].
  fold (@bind app string PlanOutput). unfold bind.
  unfold is_dict_with_text_type, intent_type_of, bind, getM, lift, por.
  destruct (intent_json intent) as [|b|n|f|t|l|d]; cbn [truthy get].
  - eexists. split; reflexivity.
  - destruct b; cbn; [reflexivity|]. eexists. split; reflexivity.
  - destruct (Z.eqb n 0); cbn; [|reflexivity]. eexists. split; reflexivity.
  - destruct f; cbn; try reflexivity; eexists; split; reflexivity.
  - destruct (String.eqb t ""); cbn; [|reflexivity]. eexists. split; reflexivity.
  - destruct l; cbn; [|reflexivity]. eexists. split; reflexivity.
  - destruct d as [|p d]; [eexists; split; reflexivity|].
    cbn [get]. destruct (lookup "intent_type" (p :: d)) as [[| | | |t| |]|];
      try reflexivity; eexists; split; reflexivity.
Qed.

(** *** The endpoints, statement by statement *)

Lemma intent_type_of_state intent (st : app) :
  exists r, intent_type_of intent st = (r, st).
Proof.
  unfold intent_type_of, bind, getM, lift.
  destruct (get (por (intent_json intent) (VDict [])) "intent_type" (VStr "")) as [t|e];
    [|eexists; reflexivity].
  destruct t; eexists; reflexivity.
Qed.

(** [Plan.objects.create] fails and leaves the database alone, or appends
    the row it returns. *)
Lemma plan_objects_create_inv faults nul_error uuid4 intent pj us addr ps (st : app) :
  match Stored.plan_objects_create faults nul_error uuid4 intent pj us addr ps st with
  | (Raise _, st') => st' = st
  | (Ok p, st') =>
      st' = (fst st, {| intents := intents (snd st); plans := plans (snd st) ++ [p] |}) /\
      plan_id p = uuid4 (List.length (plans (snd st))) /\
      Api.intent p = id intent /\
      plan_json p = pj /\
      utility_scores p = us /\
      plan_status p = ps /\
      Stored.varchar 42 addr = Some (chosen_contract_address p)
  end.
Proof.
  unfold Stored.plan_objects_create, bind, gets, raise, ret, on_snd, modify.
  destruct (Stored.insert_plan_fails faults); [reflexivity|].
  destruct (Stored.has_nul addr); [reflexivity|].
  destruct (negb _); [reflexivity|].
  destruct (Stored.varchar 42 addr) as [kept_address|]; [|reflexivity].
  destruct (find_intent (id intent) (intents (snd st))); [|reflexivity].
  destruct (Stored.has_plan _ _); [reflexivity|].
  cbn. repeat split; reflexivity.
Qed.

(** [intent.save()] fails, with the database's error, and leaves the
    database alone, or sets the status of the intent's row. *)
Lemma intent_save_inv faults intent s (st : app) :
  match Stored.intent_save faults intent s st with
  | (Raise e, st') =>
      st' = st /\
      exists what, Stored.update_intent_fails faults = Some what /\ e = DatabaseError what
  | (Ok _, st') =>
      st' = (fst st, {| intents := map (set_status (id intent) s) (intents (snd st));
                        plans := plans (snd st) |})
  end.
Proof.
  unfold Stored.intent_save, raise, on_snd, modify.
  destruct (Stored.update_intent_fails faults) as [what|]; [|reflexivity].
  split; [reflexivity|]. exists what. auto.
Qed.

(** X11. A [plan_intent] that fails leaves the database as it was, in every
    case but one: when the update of the intent's status fails, the plan
    stored just before stays (nothing rolls it back); the database then has
    this one more plan, READY and for this intent, and the intent keeps its
    old status. *)
Theorem plan_failure_leaves_database faults nul_error cfg w uuid4 pid st e st' :
  Stored.plan_intent faults nul_error cfg w uuid4 pid st = (Raise e, st') ->
  snd st' = snd st \/
  exists what p,
    Stored.update_intent_fails faults = Some what /\
    e = DatabaseError what /\
    snd st' = {| intents := intents (snd st); plans := plans (snd st) ++ [p] |} /\
    plan_id p = uuid4 (List.length (plans (snd st))) /\
    Api.intent p = pid /\
    plan_status p = READY.
Proof.
  unfold Stored.plan_intent, Stored.load_intent, Stored.intent_objects_get.
  unfold bind at 1. unfold try_except at 1.
  destruct (Stored.select_intent_fails faults) as [what|];
    [unfold raise; intros E; injection E as <- <-; left; reflexivity|].
  unfold bind at 1. unfold gets at 1.
  destruct (find_intent pid (intents (snd st))) as [intent|] eqn:Hf;
    [|unfold raise; intros E; injection E as <- <-; left; reflexivity].
  unfold ret at 1. unfold bind at 1.
  destruct (intent_type_of_state intent st) as (r & Hr). rewrite Hr.
  destruct r as [it|e0]; [|intros E; injection E as <- <-; left; reflexivity].
  unfold bind at 1.
  destruct (check_candidates_spec cfg w (str_of_int (chain_id intent)) (candidates_for it)
              [] st) as (results & st1 & Ec & _ & Hd).
  cbn [List.app] in Ec. rewrite Ec.
  destruct results as [|c0 rest];
    [unfold raise; intros E; injection E as <- <-; left; exact Hd|].
  unfold lift, getM, lift. cbn [max_by_utility]. unfold bind at 1. unfold bind at 1.
  destruct (get (intent_json intent) "asset" VNone) as [asset|ea];
    [|intros E; injection E as <- <-; left; exact Hd].
  unfold bind at 1.
  destruct (get (intent_json intent) "amount" VNone) as [amount|ea];
    [|intros E; injection E as <- <-; left; exact Hd].
  unfold bind at 1. unfold Stored.save_plan, try_except. unfold bind at 1.
  cbv zeta.
  match goal with
  | |- context [Stored.plan_objects_create ?f ?n ?u ?i ?pj ?us ?ad ?ps ?s] =>
      pose proof (plan_objects_create_inv f n u i pj us ad ps s) as Hc;
      destruct (Stored.plan_objects_create f n u i pj us ad ps s) as [[p|ec] st2]
  end.
  - unfold bind at 1.
    pose proof (intent_save_inv faults intent PLANNED st2) as Hs.
    destruct (Stored.intent_save faults intent PLANNED st2) as [[u|es] st3].
    + unfold ret. discriminate.
    + unfold raise. intros E; injection E as <- <-.
      destruct Hs as [-> (what & Hw & ->)].
      destruct Hc as (-> & Hid & Hint & _ & _ & Hst & _).
      right. exists what, p. cbn [snd] in *. rewrite Hd in *.
      rewrite Hint, (find_intent_id _ _ _ Hf). repeat split; assumption.
  - unfold raise. intros E; injection E as <- <-. subst st2. left. exact Hd.
Qed.

Lemma plan_failure_leaves_database_witness :
  snd (snd orphan_run) = snd (start borrow_intent) \/
  exists what p,
    Stored.update_intent_fails update_fails = Some what /\
    DatabaseError "server closed the connection unexpectedly" = DatabaseError what /\
    snd (snd orphan_run)
    = {| intents := intents (snd (start borrow_intent));
         plans := plans (snd (start borrow_intent)) ++ [p] |} /\
    plan_id p = uuids (List.length (plans (snd (start borrow_intent)))) /\
    Api.intent p = 7%N /\
    plan_status p = READY.
Proof.
  apply (plan_failure_leaves_database update_fails ValueError unconfigured (oracle "0") uuids
           7%N (start borrow_intent)
           (DatabaseError "server closed the connection unexpectedly") (snd orphan_run)).
  vm_compute. reflexivity.
Defined.

(** The one case: the update fails, the plan is there, the intent is still
    PARSED. *)
Example orphan_plan :
  fst orphan_run = Raise (DatabaseError "server closed the connection unexpectedly") /\
  List.map Api.intent (plans (snd (snd orphan_run))) = [7%N] /\
  List.map status (intents (snd (snd orphan_run))) = [PARSED].
Proof. vm_compute. repeat split; reflexivity. Qed.

(** X12. When [plan_intent] succeeds it appends exactly one plan, READY, for
    this intent, with the ranked candidates as its utility scores and the
    chosen one's contract, and sets this intent's status to PLANNED whatever
    it was; the earlier plans and the other intents are untouched. Every
    ranked candidate is vetted. *)
Theorem plan_success_effects cfg w uuid4 pid st out st' :
  plan_intent cfg w uuid4 pid st = (Ok out, st') ->
  exists intent p,
    find_intent pid (intents (snd st)) = Some intent /\
    snd st' = {| intents := map (set_status pid PLANNED) (intents (snd st));
                 plans := plans (snd st) ++ [p] |} /\
    plan_id p = uuid4 (List.length (plans (snd st))) /\
    out_plan_id out = plan_id p /\
    Api.intent p = pid /\
    utility_scores p = candidates out /\
    plan_status p = READY /\
    chosen_contract_address p = address (chosen out) /\
    In (chosen out) (candidates out) /\
    (forall c, In c (candidates out) -> vetted c) /\
    find_intent pid (intents (snd st')) = Some (set_status pid PLANNED intent) /\
    (forall other, other <> pid ->
                   find_intent other (intents (snd st')) = find_intent other (intents (snd st))).
Proof.
  intros E. pose proof (plan_intent_inv cfg w uuid4 pid st) as Hi.
  destruct (find_intent pid (intents (snd st))) as [intent|] eqn:Hf;
    [|rewrite Hi in E; discriminate E].
  destruct (is_dict_with_text_type (intent_json intent));
    [|rewrite Hi in E; discriminate E].
  destruct Hi as (it & _ & Hp). rewrite Hp in E.
  destruct (plan_with_inv cfg w uuid4 (candidates_for it) intent it st)
    as (results & st1 & Ec & Hd & Hw).
  rewrite E in Hw.
  destruct Hw as (Hne & Hcand & Hmax & Hin & asset & amount & _ & _ & -> & Hid).
  pose proof (find_intent_id _ _ _ Hf) as Hpid. rewrite Hpid.
  eexists. eexists. split; [reflexivity|]. cbn [snd].
  split; [reflexivity|].
  cbn [plan_id Api.intent utility_scores plan_status chosen_contract_address intents].
  rewrite Hcand.
  repeat (split; [solve [auto]|]).
  split.
  - intros c Hc.
    destruct (check_candidates_more cfg w (str_of_int (chain_id intent)) (candidates_for it)
                [] st) as (results' & st2 & Ec' & Hv & _).
    rewrite Ec in Ec'. injection Ec' as <- <-.
    destruct (Hv c Hc) as [[]|Hvc]. exact Hvc.
  - split.
    + rewrite find_intent_set_status, N.eqb_refl, Hf. reflexivity.
    + intros other Ho. rewrite find_intent_set_status.
      destruct (N.eqb other pid) eqn:Eo; [|reflexivity].
      apply N.eqb_eq in Eo. contradiction.
Qed.

Lemma plan_success_effects_witness :
  exists intent p,
    find_intent 7%N (intents (snd (start borrow_intent))) = Some intent /\
    snd (snd borrow_plan_run)
    = {| intents := map (set_status 7%N PLANNED) (intents (snd (start borrow_intent)));
         plans := plans (snd (start borrow_intent)) ++ [p] |} /\
    (forall c, In c (candidates borrow_plan_out) -> vetted c).
Proof.
  destruct (plan_success_effects unconfigured (oracle "0") uuids 7%N (start borrow_intent)
              borrow_plan_out (snd borrow_plan_run))
    as (intent & p & Hf & Hs & _ & _ & _ & _ & _ & _ & _ & Hv & _).
  - vm_compute. reflexivity.
  - exists intent, p. split; [exact Hf|]. split; [exact Hs|exact Hv].
Defined.

(** X13. An [intent_json] that is truthy but no dict, or whose [intent_type]
    is no string, makes [plan_intent] raise AttributeError at once: no check
    is sent, nothing is stored. *)
Theorem malformed_intent_fails_early cfg w uuid4 pid st intent :
  find_intent pid (intents (snd st)) = Some intent ->
  is_dict_with_text_type (intent_json intent) = false ->
  plan_intent cfg w uuid4 pid st = (Raise AttributeError, st).
Proof.
  intros Hf Hm. pose proof (plan_intent_inv cfg w uuid4 pid st) as Hi.
  rewrite Hf, Hm in Hi. exact Hi.
Qed.

Lemma malformed_intent_fails_early_witness :
  plan_intent unconfigured (oracle "0") uuids 7%N (start list_intent)
  = (Raise AttributeError, start list_intent).
Proof.
  apply (malformed_intent_fails_early unconfigured (oracle "0") uuids 7%N (start list_intent)
           list_intent); reflexivity.
Defined.

Lemma intent_type_of_falsy intent (st : app) :
  truthy (intent_json intent) = false -> intent_type_of intent st = (Ok "", st).
Proof.
  intros H. unfold intent_type_of, bind, getM, lift, por. rewrite H. reflexivity.
Qed.

(** X14. An [intent_json] that is falsy and no dict ([None], [[]], [""], 0)
    passes the choice of candidates as an unclear intent, the farms are
    checked, and only then, with a safe farm found, reading the asset raises
    AttributeError: the checks were sent, nothing is stored. *)
Theorem falsy_intent_fails_late cfg w uuid4 pid st intent results st1 :
  find_intent pid (intents (snd st)) = Some intent ->
  truthy (intent_json intent) = false ->
  isinstance_dict (intent_json intent) = false ->
  check_candidates cfg w (str_of_int (chain_id intent)) CANDIDATE_FARMS [] st
  = (Ok results, st1) ->
  results <> [] ->
  plan_intent cfg w uuid4 pid st = (Raise AttributeError, st1) /\ snd st1 = snd st.
Proof.
  intros Hf Ht Hd Ec Hne.
  rewrite (plan_intent_found cfg w uuid4 pid st intent "" Hf (intent_type_of_falsy _ _ Ht)).
  change (candidates_for "") with CANDIDATE_FARMS.
  destruct (plan_with_inv cfg w uuid4 CANDIDATE_FARMS intent "" st)
    as (results' & st1' & Ec' & Hdb & Hw).
  rewrite Ec in Ec'. injection Ec' as <- <-.
  destruct (plan_with cfg w uuid4 CANDIDATE_FARMS intent "" st) as [[out|e] st2].
  - destruct Hw as (_ & _ & _ & _ & asset & amount & Ha & _).
    destruct (get_dict_or_raise (intent_json intent)) as [(d & Hj)|(_ & Hr)].
    + rewrite Hj in Hd. discriminate Hd.
    + rewrite Hr in Ha. discriminate Ha.
  - destruct Hw as [-> [[Hnil _]|(_ & _ & ->)]]; [contradiction|auto].
Qed.

Lemma falsy_intent_fails_late_witness :
  plan_intent unconfigured (oracle "0") uuids 7%N (start null_intent)
  = (Raise AttributeError, snd null_run) /\
  snd (snd null_run) = snd (start null_intent).
Proof.
  apply (falsy_intent_fails_late unconfigured (oracle "0") uuids 7%N (start null_intent)
           null_intent null_results (snd null_run)).
  - reflexivity.
  - reflexivity.
  - reflexivity.
  - vm_compute. reflexivity.
  - discriminate.
Defined.

(** X15. The loop checks every candidate of the whitelist exactly once, in
    whitelist order, also after an unsafe one, and checks nothing else; it
    returns, and what it adds to the results is vetted. *)
Theorem every_candidate_is_checked cfg w chain cands acc st :
  exists results st',
    check_candidates cfg w chain cands acc st = (Ok results, st') /\
    checked_addresses (sent (fst st'))
    = (checked_addresses (sent (fst st)) ++ map c_address cands)%list /\
    (forall c, In c results -> In c acc \/ vetted c).
Proof.
  destruct (check_candidates_more cfg w chain cands acc st) as (results & st' & E & Hv & Hc).
  exists results, st'. auto.
Qed.

(** How a [plan_intent] that returns got there. *)
Lemma stored_plan_intent_ok faults nul_error cfg w uuid4 pid st out st' :
  Stored.plan_intent faults nul_error cfg w uuid4 pid st = (Ok out, st') ->
  exists intent it st1 asset amount p,
    find_intent pid (intents (snd st)) = Some intent /\
    intent_type_of intent st = (Ok it, st) /\
    check_candidates cfg w (str_of_int (chain_id intent)) (candidates_for it) [] st
    = (Ok (candidates out), st1) /\
    max_by_utility (candidates out) = Ok (chosen out) /\
    get (intent_json intent) "asset" VNone = Ok asset /\
    get (intent_json intent) "amount" VNone = Ok amount /\
    plan_json p = build_plan_data (chosen out) it asset amount (chain_id intent) /\
    out_plan_id out = plan_id p /\
    st' = (fst st1,
           {| intents := map (set_status (id intent) PLANNED) (intents (snd st));
              plans := plans (snd st) ++ [p] |}).
Proof.
  unfold Stored.plan_intent, Stored.load_intent, Stored.intent_objects_get.
  unfold bind at 1. unfold try_except at 1.
  destruct (Stored.select_intent_fails faults) as [what|]; [discriminate|].
  unfold bind at 1. unfold gets at 1.
  destruct (find_intent pid (intents (snd st))) as [intent|] eqn:Hf; [|discriminate].
  unfold ret at 1. unfold bind at 1.
  destruct (intent_type_of_state intent st) as (r & Hr). rewrite Hr.
  destruct r as [it|e0]; [|discriminate].
  unfold bind at 1.
  destruct (check_candidates_spec cfg w (str_of_int (chain_id intent)) (candidates_for it)
              [] st) as (results & st1 & Ec & _ & Hd).
  cbn [List.app] in Ec. rewrite Ec.
  destruct results as [|c0 rest]; [discriminate|].
  unfold lift, getM, lift. unfold bind at 1.
  destruct (max_by_utility (c0 :: rest)) as [ch|em] eqn:Hmax; [|discriminate].
  unfold bind at 1.
  destruct (get (intent_json intent) "asset" VNone) as [asset|ea] eqn:Ha; [|discriminate].
  unfold bind at 1.
  destruct (get (intent_json intent) "amount" VNone) as [amount|ea] eqn:Hm; [|discriminate].
  unfold bind at 1. unfold Stored.save_plan, try_except. unfold bind at 1.
  cbv zeta.
  match goal with
  | |- context [Stored.plan_objects_create ?f ?n ?u ?i ?pj ?us ?ad ?ps ?s] =>
      pose proof (plan_objects_create_inv f n u i pj us ad ps s) as Hc;
      destruct (Stored.plan_objects_create f n u i pj us ad ps s) as [[p|ec] st2]
  end; [|discriminate].
  unfold bind at 1.
  pose proof (intent_save_inv faults intent PLANNED st2) as Hs.
  destruct (Stored.intent_save faults intent PLANNED st2) as [[u|es] st3]; [|discriminate].
  unfold ret. intros E; injection E as <- <-.
  destruct Hc as (-> & Hid & Hint & Hpj & _ & _ & _).
  subst st3. cbn [fst snd candidates chosen out_plan_id]. rewrite Hd.
  exists intent, it, st1, asset, amount, p.
  repeat split; auto.
Qed.

Lemma not_continuation_ascii c :
  Nat.ltb (nat_of_ascii c) 128 = true -> Stored.is_continuation c = false.
Proof.
  intros H. apply Nat.ltb_lt in H. unfold Stored.is_continuation.
  destruct (Nat.leb 128 (nat_of_ascii c)) eqn:E; [|reflexivity].
  apply Nat.leb_le in E. lia.
Qed.

(** An ASCII text of at most [n] bytes is kept whole by a [varchar(n)]. *)
Lemma varchar_ascii n s :
  is_ascii s = true -> (String.length s <= n)%nat -> Stored.varchar n s = Some s.
Proof.
  intros Ha Hl.
  assert (H : Stored.split_chars n s = (s, EmptyString)).
  { revert n Ha Hl. induction s as [|c s IH]; intros n Ha Hl; [reflexivity|].
    unfold is_ascii in Ha. cbn [list_ascii_of_string forallb] in Ha.
    apply andb_true_iff in Ha. destruct Ha as [Hc Hs].
    cbn [Stored.split_chars]. rewrite (not_continuation_ascii c Hc).
    cbn [String.length] in Hl. destruct n as [|n]; [lia|].
    rewrite (IH n Hs ltac:(lia)). reflexivity. }
  unfold Stored.varchar. rewrite H. reflexivity.
Qed.

Lemma plain_text_parts s :
  Stored.plain_text s = true -> is_ascii s = true /\ Stored.has_nul s = false.
Proof.
  unfold Stored.plain_text. intros H. apply andb_true_iff in H. destruct H as [Ha Hn].
  split; [exact Ha|]. destruct (Stored.has_nul s); [discriminate|reflexivity].
Qed.

Section ParsingFacts.
Variable faults : Stored.db_faults.
Variable nul_error : exn.
Variable uuid4 : nat -> uuid.

Lemma intent_objects_create_ok user_wallet chain text json status (st : app) :
  Stored.insert_intent_fails faults = None ->
  Stored.plain_text user_wallet = true ->
  (String.length user_wallet <= 42)%nat ->
  Stored.has_nul text = false ->
  Stored.jsonb_accepts json = true ->
  -2147483648 <= chain <= 2147483647 ->
  find_intent (uuid4 (List.length (intents (snd st)))) (intents (snd st)) = None ->
  Stored.intent_objects_create faults nul_error uuid4 user_wallet chain text json status st
  = (Ok {| id := uuid4 (List.length (intents (snd st))); user_wallet := user_wallet;
           chain_id := chain; input_text := Some text; intent_json := json;
           Api.status := status |},
     (fst st,
      {| intents := intents (snd st) ++
           [{| id := uuid4 (List.length (intents (snd st))); user_wallet := user_wallet;
               chain_id := chain; input_text := Some text; intent_json := json;
               Api.status := status |}];
         plans := plans (snd st) |})).
Proof.
  intros Hfault Hw Hlen Htext Hjson Hrange Hfresh.
  destruct (plain_text_parts _ Hw) as [Hascii Hnul].
  unfold Stored.intent_objects_create, bind, gets.
  rewrite Hfault, Hnul, Htext, Hjson, (varchar_ascii 42 user_wallet Hascii Hlen).
  replace (Stored.fits_int4 chain) with true
    by (symmetry; apply andb_true_iff; split; apply Z.leb_le; lia).
  cbn [negb orb]. rewrite Hfresh. reflexivity.
Qed.

Lemma intent_objects_create_rejects user_wallet chain text json status (st : app) :
  Stored.insert_intent_fails faults <> None \/
  Stored.has_nul user_wallet = true \/
  Stored.has_nul text = true \/
  Stored.varchar 42 user_wallet = None \/
  chain < -2147483648 \/ 2147483647 < chain \/
  find_intent (uuid4 (List.length (intents (snd st)))) (intents (snd st)) <> None ->
  exists e,
    Stored.intent_objects_create faults nul_error uuid4 user_wallet chain text json status st
    = (Raise e, st).
Proof.
  intros H. unfold Stored.intent_objects_create, bind, gets, raise.
  destruct (Stored.insert_intent_fails faults) as [what|]; [eexists; reflexivity|].
  destruct (Stored.has_nul user_wallet) eqn:Enw; [eexists; reflexivity|].
  destruct (Stored.has_nul text) eqn:Ent; [eexists; reflexivity|]. cbn [orb].
  destruct (negb (Stored.jsonb_accepts json)); [eexists; reflexivity|].
  destruct (Stored.varchar 42 user_wallet) as [wallet|] eqn:Ev; [|eexists; reflexivity].
  destruct (Stored.fits_int4 chain) eqn:Er; cbn [negb]; [|eexists; reflexivity].
  apply andb_true_iff in Er. destruct Er as [E1 E2]. apply Z.leb_le in E1, E2.
  destruct (find_intent _ (intents (snd st))); [eexists; reflexivity|].
  destruct H as [H|[H|[H|[H|[H|[H|H]]]]]]; try congruence; lia.
Qed.

End ParsingFacts.

(** X16. A plain text (ASCII, no NUL) with "stake 1000 bdag" in any letter
    case, from a plain wallet of at most 42 characters, is stored as a PARSED
    intent with the stub's staking data and returned, when the database
    carries out the insert. Planning the returned id then works on the
    staking farms, and a plan that [plan_intent] stores for it approves and
    stakes 1000.0 BDAG on the farm contract. *)
Theorem parse_then_plan faults nul_error cfg w uuid_i uuid_p payload st :
  Stored.insert_intent_fails faults = None ->
  Stored.plain_text (input payload) = true ->
  Stored.plain_text (payload_user_wallet payload) = true ->
  contains "stake 1000 bdag" (lower (input payload)) = true ->
  (String.length (payload_user_wallet payload) <= 42)%nat ->
  -2147483648 <= payload_chain_id payload <= 2147483647 ->
  find_intent (uuid_i (List.length (intents (snd st)))) (intents (snd st)) = None ->
  let i := {| id := uuid_i (List.length (intents (snd st)));
              user_wallet := payload_user_wallet payload;
              chain_id := payload_chain_id payload;
              input_text := Some (input payload);
              intent_json := stake_intent_data; Api.status := PARSED |} in
  let st1 := (fst st, {| intents := intents (snd st) ++ [i]; plans := plans (snd st) |}) in
  Stored.parse_intent faults nul_error uuid_i payload st
  = (Ok {| intent_id := id i; out_status := PARSED; out_intent := stake_intent_schema;
           clarify_questions := Some [] |}, st1) /\
  plan_intent cfg w uuid_p (id i) st1
  = plan_with cfg w uuid_p CANDIDATE_FARMS i "stake_and_compound" st1 /\
  (forall faults' out st2,
     Stored.plan_intent faults' nul_error cfg w uuid_p (id i) st1 = (Ok out, st2) ->
     exists p,
       plans (snd st2) = (plans (snd st) ++ [p])%list /\
       steps (plan_json p)
       = [Approve (VStr "BDAG") (VFloat (Float64.of_ratio 1000 1))
            "0x1b227DF9c8D34CaB880774737FBf426E66Ba98Ed";
          Stake "0x1b227DF9c8D34CaB880774737FBf426E66Ba98Ed"
            (VStr "BDAG") (VFloat (Float64.of_ratio 1000 1))]).
Proof.
  intros Hfault Hin Hw Hu Hlen Hrange Hfresh i st1.
  destruct (plain_text_parts _ Hin) as [_ Hnul].
  assert (Hfound : find_intent (id i) (intents (snd st1)) = Some i)
    by (apply find_intent_app_fresh; [exact Hfresh|reflexivity]).
  assert (Hparse : Stored.parse_intent faults nul_error uuid_i payload st
                   = (Ok {| intent_id := id i; out_status := PARSED;
                            out_intent := stake_intent_schema;
                            clarify_questions := Some [] |}, st1)).
  { unfold Stored.parse_intent, bind, try_except. rewrite Hu.
    rewrite (intent_objects_create_ok faults nul_error uuid_i _ _ _ stake_intent_data PARSED st
               Hfault Hw Hlen Hnul eq_refl Hrange Hfresh).
    reflexivity. }
  split; [exact Hparse|]. split.
  { apply (plan_intent_found cfg w uuid_p (id i) st1 i "stake_and_compound");
      [exact Hfound|reflexivity]. }
  intros faults' out st2 E.
  destruct (stored_plan_intent_ok _ _ _ _ _ _ _ _ _ E)
    as (intent & it & st1' & asset & amount & p & Hf & Hit & Ec & Hmax & Ha & Hm & Hpj & _ & ->).
  rewrite Hfound in Hf. injection Hf as <-.
  change (intent_type_of i st1) with (@ret app string "stake_and_compound" st1) in Hit.
  injection Hit as <-.
  assert (Hne : candidates out <> []).
  { intros Hnil. rewrite Hnil in Hmax. discriminate Hmax. }
  destruct (max_by_utility_spec (candidates out) Hne) as (ch & l1 & l2 & Hmax' & Hres & _ & _).
  rewrite Hmax in Hmax'. injection Hmax' as <-.
  assert (Hinc : In (chosen out) (candidates out)) by (rewrite Hres; apply in_elt).
  pose proof (check_candidates_kept cfg w _ _ _ _ _ Ec) as Hk.
  destruct (kept_In _ _ Hk _ Hinc) as (cand & [<-|[]] & Haddr & _ & Hprot & _).
  cbn in Ha, Hm. injection Ha as <-. injection Hm as <-.
  exists p. split; [reflexivity|].
  rewrite Hpj. cbn [steps build_plan_data]. unfold action_step.
  rewrite Haddr, Hprot. reflexivity.
Qed.

Lemma parse_then_plan_witness :
  exists p,
    plans (snd (snd (Stored.plan_intent Stored.no_faults ValueError unconfigured (oracle "0")
                       uuids 0%N (snd parsed_run))))
    = ([] ++ [p])%list /\
    steps (plan_json p)
    = [Approve (VStr "BDAG") (VFloat (Float64.of_ratio 1000 1))
         "0x1b227DF9c8D34CaB880774737FBf426E66Ba98Ed";
       Stake "0x1b227DF9c8D34CaB880774737FBf426E66Ba98Ed"
         (VStr "BDAG") (VFloat (Float64.of_ratio 1000 1))].
Proof.
  pose proof (parse_then_plan Stored.no_faults ValueError unconfigured (oracle "0") uuids uuids
                stake_payload (fresh, empty_db) eq_refl eq_refl eq_refl eq_refl) as H.
  assert (Hlen : (String.length (payload_user_wallet stake_payload) <= 42)%nat)
    by (vm_compute; repeat constructor).
  assert (Hrange : -2147483648 <= payload_chain_id stake_payload <= 2147483647)
    by (cbn; lia).
  destruct (H Hlen Hrange eq_refl) as (_ & _ & Hp).
  apply (Hp Stored.no_faults
            (match fst (Stored.plan_intent Stored.no_faults ValueError unconfigured (oracle "0")
                          uuids 0%N (snd parsed_run)) with
             | Ok out => out
             | Raise _ => borrow_plan_out
             end)
            (snd (Stored.plan_intent Stored.no_faults ValueError unconfigured (oracle "0")
                    uuids 0%N (snd parsed_run)))).
  vm_compute. reflexivity.
Defined.

(** X17. A plain text the stub does not know is stored as a CLARIFY intent
    with an empty [intent_json] (the database carrying out the insert), and
    then building the response fails (its [intent] field cannot be [None]):
    the caller gets an error and no clarifying question, and the stored
    intent can still be planned, as a staking intent. *)
Theorem clarify_is_stored_then_fails faults nul_error uuid_i payload st :
  Stored.insert_intent_fails faults = None ->
  Stored.plain_text (input payload) = true ->
  Stored.plain_text (payload_user_wallet payload) = true ->
  contains "stake 1000 bdag" (lower (input payload)) = false ->
  (String.length (payload_user_wallet payload) <= 42)%nat ->
  -2147483648 <= payload_chain_id payload <= 2147483647 ->
  find_intent (uuid_i (List.length (intents (snd st)))) (intents (snd st)) = None ->
  let i := {| id := uuid_i (List.length (intents (snd st)));
              user_wallet := payload_user_wallet payload;
              chain_id := payload_chain_id payload;
              input_text := Some (input payload);
              intent_json := VDict []; Api.status := CLARIFY |} in
  let st1 := (fst st, {| intents := intents (snd st) ++ [i]; plans := plans (snd st) |}) in
  Stored.parse_intent faults nul_error uuid_i payload st = (Raise ValueError, st1) /\
  forall cfg w uuid_p,
    plan_intent cfg w uuid_p (id i) st1 = plan_with cfg w uuid_p CANDIDATE_FARMS i "" st1.
Proof.
  intros Hfault Hin Hw Hu Hlen Hrange Hfresh i st1.
  destruct (plain_text_parts _ Hin) as [_ Hnul]. split.
  - unfold Stored.parse_intent, bind, try_except. rewrite Hu.
    rewrite (intent_objects_create_ok faults nul_error uuid_i _ _ _ (VDict []) CLARIFY st
               Hfault Hw Hlen Hnul eq_refl Hrange Hfresh).
    reflexivity.
  - intros cfg w uuid_p.
    apply (plan_intent_found cfg w uuid_p (id i) st1 i "").
    + apply find_intent_app_fresh; [exact Hfresh|reflexivity].
    + reflexivity.
Qed.

Lemma clarify_is_stored_then_fails_witness :
  Stored.parse_intent Stored.no_faults ValueError uuids swap_payload (fresh, empty_db)
  = (Raise ValueError,
     (fresh,
      {| intents := [{| id := 0%N; user_wallet := "0xme"; chain_id := 1043;
                        input_text := Some "swap everything";
                        intent_json := VDict []; Api.status := CLARIFY |}];
         plans := [] |})).
Proof.
  apply (proj1 (clarify_is_stored_then_fails Stored.no_faults ValueError uuids swap_payload
                  (fresh, empty_db) eq_refl eq_refl eq_refl eq_refl
                  ltac:(vm_compute; repeat constructor) ltac:(cbn; lia) eq_refl)).
Defined.

(** X18. [parse_intent] stores nothing and raises when the database fails
    the insert, when the wallet or the text has a NUL character, when the
    wallet is not what a [varchar(42)] takes (more than 42 characters, and
    not only spaces after them), when the chain id does not fit 32 bits, or
    when the new id is taken. *)
Theorem parse_intent_rejects faults nul_error uuid_i payload st :
  Stored.insert_intent_fails faults <> None \/
  Stored.has_nul (payload_user_wallet payload) = true \/
  Stored.has_nul (input payload) = true \/
  Stored.varchar 42 (payload_user_wallet payload) = None \/
  payload_chain_id payload < -2147483648 \/ 2147483647 < payload_chain_id payload \/
  find_intent (uuid_i (List.length (intents (snd st)))) (intents (snd st)) <> None ->
  exists e, Stored.parse_intent faults nul_error uuid_i payload st = (Raise e, st).
Proof.
  intros H. unfold Stored.parse_intent, bind, try_except.
  destruct (intent_objects_create_rejects faults nul_error uuid_i (payload_user_wallet payload)
              (payload_chain_id payload) (input payload)
              (if contains "stake 1000 bdag" (lower (input payload))
               then stake_intent_data else VDict [])
              (if contains "stake 1000 bdag" (lower (input payload))
               then PARSED else CLARIFY) st H) as (e & E).
  rewrite E. exists e. reflexivity.
Qed.

Lemma parse_intent_rejects_witness :
  exists e,
    Stored.parse_intent Stored.no_faults ValueError uuids
      {| input := "stake 1000 bdag"; payload_user_wallet := long_wallet;
         payload_chain_id := 1043 |} (fresh, empty_db)
    = (Raise e, (fresh, empty_db)).
Proof.
  apply (parse_intent_rejects Stored.no_faults ValueError uuids
           {| input := "stake 1000 bdag"; payload_user_wallet := long_wallet;
              payload_chain_id := 1043 |} (fresh, empty_db)).
  right. right. right. left. vm_compute. reflexivity.
Defined.

(** The column counts characters, not bytes, and lets spaces beyond the
    42nd character go: a wallet of 42 two-byte characters is kept, and so
    are the first 42 characters of one that goes on with spaces. *)
Example varchar_counts_characters :
  String.length accented_wallet = 84%nat /\
  Stored.varchar 42 accented_wallet = Some accented_wallet /\
  Stored.varchar 42 (accented_wallet ++ "  ") = Some accented_wallet /\
  Stored.varchar 42 long_wallet = None.
Proof. vm_compute. repeat split; reflexivity. Qed.

End ApiMore.
